(** * mini-aqm: the AQI classifier and the polling loop of [main.py]

    A shallow embedding of [src/main.py]: the pure classifier
    [get_breakpoint], the two console renderers [print_debug] and
    [print_pm], and the command [main] with its discovery phase and its
    unbounded polling loop.  The collaborators of [main] (device discovery,
    device reads, the InfluxDB log writer, the systemd watchdog, the
    console) are recorded as events of a trace; the answers of the outside
    world are given by an environment. *)

From Stdlib Require Import String Ascii List Bool Arith ZArith QArith Lia Lqa.
From Stdlib Require Import DecimalString.
Import ListNotations.
Local Open Scope string_scope.

(** ** Python numbers

    [get_breakpoint] is annotated [float] and is called with the integer
    field [pm2_5_atm].  Python compares an [int] or a [float] with a
    [float] constant by their exact mathematical values, so a finite number
    is modelled by a rational; the two infinities and NaN are kept apart,
    with the IEEE rule that every ordered comparison with NaN is false. *)
Module PyNum.

Inductive t : Type :=
| Fin (q : Q)
| PosInf
| NegInf
| NaN.

Definition Qltb (x y : Q) : bool :=
  match (x ?= y)%Q with Lt => true | _ => false end.

(** Python's [a < b]. *)
Definition lt (a b : t) : bool :=
  match a, b with
  | NaN, _ | _, NaN => false
  | _, NegInf => false
  | NegInf, _ => true
  | PosInf, _ => false
  | Fin _, PosInf => true
  | Fin x, Fin y => Qltb x y
  end.

(** Python's [a <= b]. *)
Definition le (a b : t) : bool :=
  match a, b with
  | NaN, _ | _, NaN => false
  | NegInf, _ => true
  | _, NegInf => false
  | _, PosInf => true
  | PosInf, Fin _ => false
  | Fin x, Fin y => negb (Qltb y x)
  end.

Definition of_Z (z : Z) : t := Fin (inject_Z z).

End PyNum.

Declare Scope py_scope.
Delimit Scope py_scope with py.
Infix "<?" := PyNum.lt : py_scope.
Infix "<=?" := PyNum.le : py_scope.

(** ** colorama

    The escape sequences of [colorama.Fore] and [colorama.Style] that
    [main.py] uses. *)
Module Colorama.

Definition ESC : string := String (ascii_of_nat 27) "[".
Definition code (n : string) : string := ESC ++ n ++ "m".

Module Fore.
Definition RED : string := code "31".
Definition GREEN : string := code "32".
Definition YELLOW : string := code "33".
Definition BLUE : string := code "34".
Definition MAGENTA : string := code "35".
End Fore.

Module Style.
Definition BRIGHT : string := code "1".
Definition RESET_ALL : string := code "0".
End Style.

End Colorama.
Import Colorama.

(** ** The classifier *)

(** The float literals of [get_breakpoint]. *)
Definition f15_5 : PyNum.t := PyNum.Fin (31 # 2).
Definition f40_5 : PyNum.t := PyNum.Fin (81 # 2).
Definition f65_5 : PyNum.t := PyNum.Fin (131 # 2).
Definition i150 : PyNum.t := PyNum.of_Z 150.
Definition i250 : PyNum.t := PyNum.of_Z 250.

(** [get_breakpoint(pm25)]: the label and the console style of the bracket
    of [pm25]. *)
Definition get_breakpoint (pm25 : PyNum.t) : string * string :=
  if (pm25 <? f15_5)%py then ("Good", Fore.GREEN)
  else if (pm25 <? f40_5)%py then ("Moderate", Fore.YELLOW)
  else if (pm25 <? f65_5)%py then
    ("Unhealthy for Certain Groups", Fore.YELLOW ++ Style.BRIGHT)
  else if (pm25 <? i150)%py then ("Unhealthy", Fore.RED)
  else if (pm25 <? i250)%py then ("Very Unhealthy", Fore.RED ++ Style.BRIGHT)
  else ("Hazardous", Fore.MAGENTA).

(** ** Data model *)

(** Modelled from the spec: the named tuple [PMSData] of [pms7003.py],
    which is not part of [main.py].  The fields are the ones [main.py]
    reads, in the order of the sensor frame: two header bytes, the frame
    length, six PM concentrations, six particle counts, the reserved field
    and the checksum. *)
Record PMSData : Type := {
  header_high : ascii;
  header_low : ascii;
  frame_length : Z;
  pm1_0_cf1 : Z;
  pm2_5_cf1 : Z;
  pm10_0_cf1 : Z;
  pm1_0_atm : Z;
  pm2_5_atm : Z;
  pm10_0_atm : Z;
  count_0_3 : Z;
  count_0_5 : Z;
  count_1_0 : Z;
  count_2_5 : Z;
  count_5_0 : Z;
  count_10_0 : Z;
  reserved : Z;
  checksum : Z
}.

Definition ord (c : ascii) : Z := Z.of_N (N_of_ascii c).

(** [data._asdict()]: the fields by name, in declaration order. *)
Definition _asdict (data : PMSData) : list (string * Z) :=
  [ ("header_high", ord (header_high data));
    ("header_low", ord (header_low data));
    ("frame_length", frame_length data);
    ("pm1_0_cf1", pm1_0_cf1 data);
    ("pm2_5_cf1", pm2_5_cf1 data);
    ("pm10_0_cf1", pm10_0_cf1 data);
    ("pm1_0_atm", pm1_0_atm data);
    ("pm2_5_atm", pm2_5_atm data);
    ("pm10_0_atm", pm10_0_atm data);
    ("count_0_3", count_0_3 data);
    ("count_0_5", count_0_5 data);
    ("count_1_0", count_1_0 data);
    ("count_2_5", count_2_5 data);
    ("count_5_0", count_5_0 data);
    ("count_10_0", count_10_0 data);
    ("reserved", reserved data);
    ("checksum", checksum data) ].

(** Modelled from the spec: the device handle [PMS7003] of [pms7003.py];
    [main.py] uses its [id] and its [read()]. *)
Record PMS7003 : Type := {
  id : string;
  serial_port : string
}.

(** Modelled from the spec: the named tuple [SearchResult] of
    [pms7003.py], one per candidate port. *)
Record SearchResult : Type := {
  desc : string;
  port : string;
  dev : option PMS7003;
  error : option string
}.

(** Modelled from the spec: the object built by [InfluxdbLogger(log_path)];
    [main.py] reads its [MEASUREMENT] and [path] and calls [emit]. *)
Record InfluxdbLogger : Type := {
  MEASUREMENT : string;
  path : string
}.

(** Modelled from the spec: the truth value of a [SearchResult]; a named
    tuple of four fields is a non-empty tuple, which Python takes as true. *)
Definition bool_SearchResult (p : SearchResult) : bool := true.

(** Modelled from the spec: the truth value of a device handle; an opaque
    object that defines neither a length nor a truth value is true. *)
Definition bool_PMS7003 (d : PMS7003) : bool := true.

(** [any(xs)] for a list whose elements have the truth value [truth]. *)
Definition any {A : Type} (truth : A -> bool) (xs : list A) : bool :=
  existsb truth xs.

(** [str(n)] for an [int]. *)
Definition str (n : Z) : string := NilZero.string_of_int (Z.to_int n).

(** [str(o)] for an [Optional[str]]. *)
Definition str_opt (o : option string) : string :=
  match o with
  | Some s => s
  | None => "None"
  end.

(** ["%c" % c] for a byte. *)
Definition chr (c : ascii) : string := String c "".

Definition TAB : string := String (ascii_of_nat 9) "".

(** ** Events, environment and the command monad *)

(** What a collaborator call does: it returns, raises or never comes back. *)
Inductive answer (A : Type) : Type :=
| Returns (a : A)
| Throws (exc : string)
| Hangs.
Arguments Returns {A} a.
Arguments Throws {A} exc.
Arguments Hangs {A}.

(** The calls [main] makes to its collaborators, as they appear to an
    observer: log records, console lines ([click.echo] with its [err] flag,
    [print]), device discovery, the creation of the log writer, the
    watchdog's [ready()] and [ping()], a device read with what came back,
    and a call of the log writer's [emit]. *)
Inductive event : Type :=
| EvLog (msg : string)
| EvEcho (err : bool) (line : string)
| EvPrint (line : string)
| EvFindDevices (only : option string)
| EvInfluxdbLogger (log_path : string)
| EvReady
| EvPing
| EvRead (d : PMS7003) (r : answer PMSData)
| EvEmit (fields : list (string * Z)) (tags : list (string * string)).

(** The outside world.  A device read and a log write may depend on
    everything that happened before (the history of events). *)
Record Env : Type := {
  find_devices : option string -> list SearchResult;
  new_logger : string -> InfluxdbLogger;
  read : list event -> PMS7003 -> answer PMSData;
  emit : list event -> list (string * Z) -> list (string * string) -> answer unit
}.

(** How a run of a command ends; [Running] is a [while True] loop observed
    for as many iterations as the fuel allows and still going. *)
Inductive outcome (A : Type) : Type :=
| Done (a : A)
| Raised (exc : string)
| Blocked
| Running.
Arguments Done {A} a.
Arguments Raised {A} exc.
Arguments Blocked {A}.
Arguments Running {A}.

(** A command maps the history to the events it appends and its outcome. *)
Definition M (A : Type) : Type := list event -> list event * outcome A.

Definition ret {A : Type} (a : A) : M A := fun _ => ([], Done a).

Definition bind {A B : Type} (m : M A) (k : A -> M B) : M B :=
  fun h =>
    match m h with
    | (t1, Done a) => let (t2, o) := k a (h ++ t1)%list in ((t1 ++ t2)%list, o)
    | (t1, Raised e) => (t1, Raised e)
    | (t1, Blocked) => (t1, Blocked)
    | (t1, Running) => (t1, Running)
    end.

Declare Scope cmd_scope.
Delimit Scope cmd_scope with cmd.
Notation "x <- m ;; k" := (bind m (fun x => k))
  (at level 61, m at next level, right associativity) : cmd_scope.
Notation "m ;; k" := (bind m (fun _ => k))
  (at level 61, right associativity) : cmd_scope.
Local Open Scope cmd_scope.

(** A call that only leaves an event. *)
Definition tell (e : event) : M unit := fun _ => ([e], Done tt).

(** A call whose result the environment decides; an exception it raises
    is not caught, and a call that hangs blocks the command. *)
Definition ask {A : Type} (e : answer A -> event) (ans : list event -> answer A)
  : M A :=
  fun h =>
    match ans h with
    | Returns a => ([e (Returns a)], Done a)
    | Throws exc => ([e (Throws exc)], Raised exc)
    | Hangs => ([e Hangs], Blocked)
    end.

(** [for x in xs: body(x)]. *)
Fixpoint for_each {A : Type} (xs : list A) (body : A -> M unit) : M unit :=
  match xs with
  | [] => ret tt
  | x :: xs' => body x ;; for_each xs' body
  end.

(** [while True: body], observed for [fuel] iterations. *)
Fixpoint while_true (fuel : nat) (body : M unit) : M unit :=
  match fuel with
  | O => fun _ => ([], Running)
  | S n => body ;; while_true n body
  end.

Definition print (line : string) : M unit := tell (EvPrint line).

Definition click_echo (line : string) (err : bool) : M unit :=
  tell (EvEcho err line).

(** ** The console renderers *)

Definition RULE : string :=
  "============================================================================".

(** [print_debug(data)]: the entire structure, one [print] per line. *)
Definition print_debug (data : PMSData) : M unit :=
  print RULE ;;
  print ("Header : " ++ chr (header_high data) ++ " " ++ chr (header_low data)
         ++ " " ++ TAB ++ TAB ++ " | Frame length : " ++ str (frame_length data)) ;;
  print ("PM 1.0 (CF=1) : " ++ str (pm1_0_cf1 data) ++ TAB
         ++ " | PM 1.0 : " ++ str (pm1_0_atm data)) ;;
  print ("PM 2.5 (CF=1) : " ++ str (pm2_5_cf1 data) ++ TAB
         ++ " | PM 2.5 : " ++ str (pm2_5_atm data)) ;;
  print ("PM 10.0 (CF=1) : " ++ str (pm10_0_cf1 data) ++ TAB
         ++ " | PM 10.0 : " ++ str (pm10_0_atm data)) ;;
  print ("0.3um in 0.1L of air : " ++ str (count_0_3 data)) ;;
  print ("0.5um in 0.1L of air : " ++ str (count_0_5 data)) ;;
  print ("1.0um in 0.1L of air : " ++ str (count_1_0 data)) ;;
  print ("2.5um in 0.1L of air : " ++ str (count_2_5 data)) ;;
  print ("5.0um in 0.1L of air : " ++ str (count_5_0 data)) ;;
  print ("10.0um in 0.1L of air : " ++ str (count_10_0 data)) ;;
  print ("Reserved F : " ++ str (reserved data)) ;;
  print ("CHKSUM : " ++ str (checksum data)) ;;
  print RULE.

(** The line [print_pm] writes. *)
Definition pm_line (data : PMSData) : string :=
  let '(aqi, style) := get_breakpoint (PyNum.of_Z (pm2_5_atm data)) in
  let result :=
    [ ("PM 1.0", str (pm1_0_atm data));
      ("PM 2.5", style ++ str (pm2_5_atm data) ++ Style.RESET_ALL);
      ("PM 10", str (pm10_0_atm data));
      ("AQI", style ++ aqi ++ Style.RESET_ALL) ] in
  let pairs := map (fun '(k, v) => k ++ ": " ++ v) result in
  String.concat "  " pairs.

(** [print_pm(data)]. *)
Definition print_pm (data : PMSData) : M unit :=
  click_echo (pm_line data) false.

(** [configure_logging(debug)]: the logger "mini-aqm" gets a stream handler
    and the level DEBUG or ERROR; its first debug record passes the level
    only in debug mode. *)
Definition configure_logging (debug : bool) : M unit :=
  if debug then tell (EvLog "configured debug logging") else ret tt.

(** [log.debug(msg)] on the child logger "mini-aqm.main", whose effective
    level is the one [configure_logging] set. *)
Definition log_debug (debug : bool) (msg : string) : M unit :=
  if debug then tell (EvLog msg) else ret tt.

(** ** The command *)

Definition NO_SERIAL : string :=
  Fore.RED
  ++ "no serial devices found. is your device plugged in? did you install drivers?"
  ++ Style.RESET_ALL.

Definition NO_PMS7003 : string :=
  Fore.RED
  ++ "no PMS7003 devices found; resolve any errors printed above and try again"
  ++ Style.RESET_ALL.

(** The warning for a candidate port without a device. *)
Definition warning (p : SearchResult) : string :=
  Fore.YELLOW
  ++ "error on " ++ desc p ++ " " ++ port p ++ ": " ++ str_opt (error p)
  ++ Style.RESET_ALL.

Definition writing (logger : InfluxdbLogger) : string :=
  Fore.BLUE
  ++ "writing influxdb measurement " ++ MEASUREMENT logger ++ " to " ++ path logger
  ++ Style.RESET_ALL.

Definition beginning (d : PMS7003) : string :=
  Fore.GREEN ++ "beginning to read data from " ++ id d ++ "..." ++ Style.RESET_ALL.

(** [{k: v for k, v in data._asdict().items() if k.startswith("pm")}]. *)
Definition pm_fields (data : PMSData) : list (string * Z) :=
  filter (fun '(k, _) => prefix "pm" k) (_asdict data).

(** [{"type": "PMS7003", "id": dev.id}]. *)
Definition pm_tags (d : PMS7003) : list (string * string) :=
  [ ("type", "PMS7003"); ("id", id d) ].

(** [[p.dev for p in possible if p.dev]]. *)
Fixpoint devices (possible : list SearchResult) : list PMS7003 :=
  match possible with
  | [] => []
  | p :: rest =>
      match dev p with
      | Some d => if bool_PMS7003 d then d :: devices rest else devices rest
      | None => devices rest
      end
  end.

Section Program.

Variable env : Env.
Variables debug log_only : bool.

(** The body of [for dev in devs] inside the loop. *)
Definition poll (d : PMS7003) : M unit :=
  data <- ask (EvRead d) (fun h => read env h d) ;;
  if debug then print_debug data
  else
    (let fields := pm_fields data in
     let tags := pm_tags d in
     ask (fun _ => EvEmit fields tags) (fun h => emit env h fields tags)) ;;
    if negb log_only then print_pm data else ret tt.

(** The body of [while True]. *)
Definition iteration (devs : list PMS7003) : M unit :=
  tell EvPing ;;
  for_each devs poll.

(** [main(port, debug, log_only, log_path)], its loop observed for [fuel]
    iterations. *)
Definition main (fuel : nat) (port : option string) (log_path : string) : M unit :=
  configure_logging debug ;;
  log_debug debug "looking for possible PMS7003 devices..." ;;
  tell (EvFindDevices port) ;;
  let possible := find_devices env port in
  if negb (any bool_SearchResult possible) then
    click_echo NO_SERIAL true
  else
    for_each possible
      (fun p => match dev p with
                | None => click_echo (warning p) true
                | Some _ => ret tt
                end) ;;
    let devs := devices possible in
    if negb (any bool_PMS7003 devs) then
      click_echo NO_PMS7003 true
    else
      tell (EvInfluxdbLogger log_path) ;;
      let logger := new_logger env log_path in
      click_echo (writing logger) false ;;
      for_each devs (fun d => click_echo (beginning d) false) ;;
      tell EvReady ;;
      while_true fuel (iteration devs).

End Program.

(** ** Vocabulary of the claims *)

(** The labels of the breakpoint table as the spec words them. *)
Definition spec_labels : list string :=
  [ "Good"; "Moderate"; "UnhealthyForSensitiveGroups"; "Unhealthy";
    "VeryUnhealthy"; "Hazardous" ].

(** The labels of the breakpoint table as [get_breakpoint] returns them. *)
Definition labels : list string :=
  [ "Good"; "Moderate"; "Unhealthy for Certain Groups"; "Unhealthy";
    "Very Unhealthy"; "Hazardous" ].

(** Position of a label in a table. *)
Fixpoint index_of (l : string) (table : list string) : option nat :=
  match table with
  | [] => None
  | x :: rest =>
      if String.eqb l x then Some O else option_map S (index_of l rest)
  end.

(** The severity tier of a concentration: the rank, Good = 0 through
    Hazardous = 5, of the label the classifier returns. *)
Definition tier (pm25 : PyNum.t) : option nat :=
  index_of (fst (get_breakpoint pm25)) labels.

(** The brackets of the breakpoint table: an inclusive lower bound and an
    exclusive upper bound, none for the last bracket. *)
Definition brackets : list (PyNum.t * option PyNum.t) :=
  [ (PyNum.of_Z 0, Some f15_5);
    (f15_5, Some f40_5);
    (f40_5, Some f65_5);
    (f65_5, Some i150);
    (i150, Some i250);
    (i250, None) ].

Definition in_bracket (b : PyNum.t * option PyNum.t) (x : PyNum.t) : bool :=
  (fst b <=? x)%py
  && match snd b with
     | Some hi => (x <? hi)%py
     | None => true
     end.

(** The breakpoint table with a given wording of the labels. *)
Definition table (wording : list string)
  : list ((PyNum.t * option PyNum.t) * string) :=
  combine brackets wording.

(** The label the table gives to [x]: that of the first bracket holding it. *)
Definition table_label (wording : list string) (x : PyNum.t) : option string :=
  option_map snd (find (fun row => in_bracket (fst row) x) (table wording)).

(** [sub] occurs in [s]. *)
Definition contains (s sub : string) : Prop :=
  exists a b, s = a ++ sub ++ b.

Definition is_ping (e : event) : bool :=
  match e with EvPing => true | _ => false end.

Definition is_emit (e : event) : bool :=
  match e with EvEmit _ _ => true | _ => false end.

Definition is_read (e : event) : bool :=
  match e with EvRead _ _ => true | _ => false end.

(** A line on standard output. *)
Definition is_stdout (e : event) : bool :=
  match e with
  | EvEcho false _ | EvPrint _ => true
  | _ => false
  end.

(** An event of the running phase: the log writer, the watchdog, a read. *)
Definition is_running (e : event) : bool :=
  match e with
  | EvInfluxdbLogger _ | EvReady | EvPing | EvRead _ _ | EvEmit _ _ => true
  | _ => false
  end.

(** The six field names a telemetry record may carry. *)
Definition PM_KEYS : list string :=
  [ "pm1_0_cf1"; "pm1_0_atm"; "pm2_5_cf1"; "pm2_5_atm"; "pm10_0_cf1"; "pm10_0_atm" ].

(** The names of the other fields of a measurement. *)
Definition OTHER_KEYS : list string :=
  [ "header_high"; "header_low"; "frame_length";
    "count_0_3"; "count_0_5"; "count_1_0"; "count_2_5"; "count_5_0"; "count_10_0";
    "reserved"; "checksum" ].

(** The fourteen lines of a debug dump. *)
Definition debug_lines (data : PMSData) : list string :=
  [ RULE;
    "Header : " ++ chr (header_high data) ++ " " ++ chr (header_low data)
      ++ " " ++ TAB ++ TAB ++ " | Frame length : " ++ str (frame_length data);
    "PM 1.0 (CF=1) : " ++ str (pm1_0_cf1 data) ++ TAB
      ++ " | PM 1.0 : " ++ str (pm1_0_atm data);
    "PM 2.5 (CF=1) : " ++ str (pm2_5_cf1 data) ++ TAB
      ++ " | PM 2.5 : " ++ str (pm2_5_atm data);
    "PM 10.0 (CF=1) : " ++ str (pm10_0_cf1 data) ++ TAB
      ++ " | PM 10.0 : " ++ str (pm10_0_atm data);
    "0.3um in 0.1L of air : " ++ str (count_0_3 data);
    "0.5um in 0.1L of air : " ++ str (count_0_5 data);
    "1.0um in 0.1L of air : " ++ str (count_1_0 data);
    "2.5um in 0.1L of air : " ++ str (count_2_5 data);
    "5.0um in 0.1L of air : " ++ str (count_5_0 data);
    "10.0um in 0.1L of air : " ++ str (count_10_0 data);
    "Reserved F : " ++ str (reserved data);
    "CHKSUM : " ++ str (checksum data);
    RULE ].

(** Every field of a measurement, as text. *)
Definition rendered_fields (data : PMSData) : list string :=
  [ chr (header_high data); chr (header_low data); str (frame_length data);
    str (pm1_0_cf1 data); str (pm1_0_atm data);
    str (pm2_5_cf1 data); str (pm2_5_atm data);
    str (pm10_0_cf1 data); str (pm10_0_atm data);
    str (count_0_3 data); str (count_0_5 data); str (count_1_0 data);
    str (count_2_5 data); str (count_5_0 data); str (count_10_0 data);
    str (reserved data); str (checksum data) ].

(** The telemetry record of a device and a measurement. *)
Definition record_of (x : PMS7003 * PMSData) : event :=
  EvEmit (pm_fields (snd x)) (pm_tags (fst x)).

(** What one device contributes to an iteration when its read returns
    [data] and nothing raises. *)
Definition poll_events (debug log_only : bool) (x : PMS7003 * PMSData)
  : list event :=
  EvRead (fst x) (Returns (snd x))
  :: (if debug then map EvPrint (debug_lines (snd x))
      else record_of x
           :: (if log_only then [] else [EvEcho false (pm_line (snd x))])).

(** The results of discovery that carry no device. *)
Definition failed (possible : list SearchResult) : list SearchResult :=
  filter (fun p => match dev p with None => true | Some _ => false end) possible.

(** Some result of discovery carries a device. *)
Definition usable (possible : list SearchResult) : Prop :=
  exists p d, In p possible /\ dev p = Some d.

(** The log records of the start of [main]. *)
Definition log_events (debug : bool) : list event :=
  if debug
  then [ EvLog "configured debug logging";
         EvLog "looking for possible PMS7003 devices..." ]
  else [].

(** The warnings of the discovery phase. *)
Definition warnings (possible : list SearchResult) : list event :=
  map (fun p => EvEcho true (warning p)) (failed possible).

(** Everything [main] does before its loop when a device was found. *)
Definition startup (env : Env) (debug : bool) (port : option string)
  (log_path : string) : list event :=
  (log_events debug
   ++ [EvFindDevices port]
   ++ warnings (find_devices env port)
   ++ [ EvInfluxdbLogger log_path;
        EvEcho false (writing (new_logger env log_path)) ]
   ++ map (fun d => EvEcho false (beginning d)) (devices (find_devices env port))
   ++ [EvReady])%list.

(** Everything [main] does when no device was found. *)
Definition giving_up (env : Env) (debug : bool) (port : option string)
  : list event :=
  (log_events debug
   ++ [EvFindDevices port]
   ++ match find_devices env port with
      | [] => [EvEcho true NO_SERIAL]
      | possible => warnings possible ++ [EvEcho true NO_PMS7003]
      end)%list.

(** Every event a command appends satisfies [P], whatever the history. *)
Definition emits_only {A : Type} (P : event -> Prop) (m : M A) : Prop :=
  forall h, Forall P (fst (m h)).

(** ** A sample world

    The end-to-end scenario of the spec: three candidate ports, two fail
    with "Permission denied", one carries a sensor. *)

Definition sample_data : PMSData :=
  {| header_high := "B"%char; header_low := "M"%char; frame_length := 28;
     pm1_0_cf1 := 5; pm2_5_cf1 := 17; pm10_0_cf1 := 19;
     pm1_0_atm := 5; pm2_5_atm := 16; pm10_0_atm := 18;
     count_0_3 := 900; count_0_5 := 260; count_1_0 := 40;
     count_2_5 := 4; count_5_0 := 1; count_10_0 := 0;
     reserved := 151; checksum := 612 |}.

Definition sample_dev : PMS7003 :=
  {| id := "ttyUSB2"; serial_port := "/dev/ttyUSB2" |}.

Definition denied (name : string) : SearchResult :=
  {| desc := "USB Serial"; port := "/dev/" ++ name; dev := None;
     error := Some "Permission denied" |}.

Definition found (d : PMS7003) : SearchResult :=
  {| desc := "USB Serial"; port := serial_port d; dev := Some d;
     error := None |}.

(** A world where discovery answers [possible], every read returns
    [sample_data] and every log write succeeds. *)
Definition world (possible : list SearchResult) : Env :=
  {| find_devices := fun _ => possible;
     new_logger := fun log_path => {| MEASUREMENT := "pms7003"; path := log_path |};
     read := fun _ _ => Returns sample_data;
     emit := fun _ _ _ => Returns tt |}.

Definition sample_env : Env :=
  world [denied "ttyUSB0"; denied "ttyUSB1"; found sample_dev].

(** The same ports, none of which carries a sensor. *)
Definition no_device_env : Env :=
  world [denied "ttyUSB0"; denied "ttyUSB1"].

(** A world whose sensor stops answering: every read raises. *)
Definition broken_env : Env :=
  {| find_devices := fun _ => [found sample_dev];
     new_logger := fun log_path => {| MEASUREMENT := "pms7003"; path := log_path |};
     read := fun _ _ => Throws "SerialException";
     emit := fun _ _ _ => Returns tt |}.

(** ** Further vocabulary *)

Definition is_log (e : event) : bool :=
  match e with EvLog _ => true | _ => false end.

Definition is_ready (e : event) : bool :=
  match e with EvReady => true | _ => false end.

Definition is_new_logger (e : event) : bool :=
  match e with EvInfluxdbLogger _ => true | _ => false end.

(** An event of the loop: a ping, a read, a record or a line on standard
    output. *)
Definition is_loop_event (e : event) : bool :=
  match e with
  | EvPing | EvRead _ _ | EvEmit _ _ | EvPrint _ | EvEcho false _ => true
  | _ => false
  end.

(** A read that did not return. *)
Definition read_failed (e : event) : bool :=
  match e with
  | EvRead _ (Throws _) | EvRead _ Hangs => true
  | _ => false
  end.

(** The devices read, in the order of the reads. *)
Definition reads_of (t : list event) : list PMS7003 :=
  flat_map (fun e => match e with EvRead d _ => [d] | _ => [] end) t.

(** No read of [t] failed. *)
Definition clean (t : list event) : Prop :=
  Forall (fun e => read_failed e = false) t.

(** A run stops at the first call that does not return: when it ends
    normally or is still going, no read failed; when it raised [exc] or
    blocked, the last event is the call that did it, a read that raised
    [exc] (or hangs) or a call of [emit], and no read failed before. *)
Definition stops_at_failure {A : Type} (r : list event * outcome A) : Prop :=
  match snd r with
  | Done _ | Running => clean (fst r)
  | Raised exc =>
      exists pre e,
        fst r = (pre ++ [e])%list /\ clean pre
        /\ (is_emit e = true \/ exists d, e = EvRead d (Throws exc))
  | Blocked =>
      exists pre e,
        fst r = (pre ++ [e])%list /\ clean pre
        /\ (is_emit e = true \/ exists d, e = EvRead d Hangs)
  end.


(** A measurement with the atmospheric values of [sample_data] and other
    CF=1 values, counts and checksum. *)
Definition other_data : PMSData :=
  {| header_high := "B"%char; header_low := "M"%char; frame_length := 28;
     pm1_0_cf1 := 4; pm2_5_cf1 := 14; pm10_0_cf1 := 15;
     pm1_0_atm := 5; pm2_5_atm := 16; pm10_0_atm := 18;
     count_0_3 := 870; count_0_5 := 251; count_1_0 := 38;
     count_2_5 := 3; count_5_0 := 0; count_10_0 := 0;
     reserved := 151; checksum := 540 |}.

(** * Properties *)

Local Open Scope list_scope.

(** ** Comparisons *)

Lemma Qltb_spec (x y : Q) : reflect (x < y)%Q (PyNum.Qltb x y).
Proof.
  unfold PyNum.Qltb.
  destruct (x ?= y)%Q eqn:E; constructor.
  - intro H. apply (proj1 (Qlt_alt x y)) in H. congruence.
  - apply (proj2 (Qlt_alt x y)). exact E.
  - intro H. apply (proj1 (Qlt_alt x y)) in H. congruence.
Qed.

Ltac by_cases_Q :=
  repeat match goal with
         | |- context [PyNum.Qltb ?a ?b] =>
             destruct (Qltb_spec a b); try (exfalso; lra)
         | H : context [PyNum.Qltb ?a ?b] |- _ =>
             destruct (Qltb_spec a b); try (exfalso; lra)
         end.

Ltac unfold_consts :=
  unfold f15_5, f40_5, f65_5, i150, i250, PyNum.of_Z, inject_Z in *.

(** If [x <= y] and [y < c] then [x < c], infinities and NaN included. *)
Lemma lt_le_trans (x y c : PyNum.t) :
  (x <=? y)%py = true -> (y <? c)%py = true -> (x <? c)%py = true.
Proof.
  destruct x, y, c; simpl; intros H1 H2;
    try discriminate; try reflexivity;
    by_cases_Q; simpl in *; try discriminate; reflexivity.
Qed.

Lemma lt_trans (x y c : PyNum.t) :
  (x <? y)%py = true -> (y <? c)%py = true -> (x <? c)%py = true.
Proof.
  destruct x, y, c; simpl; intros H1 H2;
    try discriminate; try reflexivity;
    by_cases_Q; simpl in *; try discriminate; reflexivity.
Qed.

(** ** The classifier *)

Example get_breakpoint_15_4 :
  get_breakpoint (PyNum.Fin (154 # 10)) = ("Good", Fore.GREEN).
Proof. reflexivity. Qed.

Example get_breakpoint_15_5 :
  get_breakpoint f15_5 = ("Moderate", Fore.YELLOW).
Proof. reflexivity. Qed.

Example get_breakpoint_40_5 :
  get_breakpoint f40_5
  = ("Unhealthy for Certain Groups", Fore.YELLOW ++ Style.BRIGHT)%string.
Proof. reflexivity. Qed.

Example get_breakpoint_65_5 :
  get_breakpoint f65_5 = ("Unhealthy", Fore.RED).
Proof. reflexivity. Qed.

Example get_breakpoint_150 :
  get_breakpoint i150 = ("Very Unhealthy", Fore.RED ++ Style.BRIGHT)%string.
Proof. reflexivity. Qed.

Example get_breakpoint_250 :
  get_breakpoint i250 = ("Hazardous", Fore.MAGENTA).
Proof. reflexivity. Qed.

Example get_breakpoint_nan :
  get_breakpoint PyNum.NaN = ("Hazardous", Fore.MAGENTA).
Proof. reflexivity. Qed.

(** A negative number is below the first breakpoint. *)
Lemma negative_below_15_5 (x : PyNum.t) :
  (x <? PyNum.of_Z 0)%py = true -> (x <? f15_5)%py = true.
Proof.
  intro H. apply (lt_trans x (PyNum.of_Z 0) f15_5 H). reflexivity.
Qed.

(** The label is always one of the six of the cascade. *)
Lemma get_breakpoint_label (x : PyNum.t) :
  In (fst (get_breakpoint x)) labels.
Proof.
  unfold get_breakpoint, labels.
  repeat match goal with
         | |- context [if ?b then _ else _] => destruct b
         end; simpl; tauto.
Qed.

(** C1, as stated, fails: at 40.5 the spec's table says
    UnhealthyForSensitiveGroups, and [get_breakpoint] returns another
    label. *)
Lemma C1_spec_label_differs :
  (PyNum.of_Z 0 <=? f40_5)%py = true
  /\ table_label spec_labels f40_5 = Some "UnhealthyForSensitiveGroups"%string
  /\ table_label spec_labels f40_5 <> Some (fst (get_breakpoint f40_5)).
Proof.
  split; [reflexivity | split; [reflexivity | ]].
  vm_compute. discriminate.
Qed.

(** C1 (amended): for every non-negative concentration [x] the classifier
    returns the label of the bracket of the breakpoint table that holds
    [x], lower bounds inclusive and upper bounds exclusive, the labels
    being Good, Moderate, Unhealthy for Certain Groups, Unhealthy, Very
    Unhealthy and Hazardous; so 15.4 is Good, 15.5 Moderate, 40.5 Unhealthy
    for Certain Groups, 65.5 Unhealthy, 150 Very Unhealthy and 250
    Hazardous.  The classifier is a total function: it raises on no
    input. *)
Theorem C1_breakpoint_table (x : PyNum.t)
  (Hx : (PyNum.of_Z 0 <=? x)%py = true) :
  table_label labels x = Some (fst (get_breakpoint x))
  /\ (forall row, In row (table labels) ->
        in_bracket (fst row) x = true -> snd row = fst (get_breakpoint x))
  /\ map (fun c => fst (get_breakpoint c))
       [PyNum.Fin (154 # 10); f15_5; f40_5; f65_5; i150; i250]
     = labels.
Proof.
  split; [ | split; [ | reflexivity ] ].
  - destruct x as [q | | | ]; try discriminate; [ | reflexivity ].
    unfold table_label, table, brackets, in_bracket, get_breakpoint.
    unfold_consts.
    cbn -[PyNum.Qltb] in Hx |- *.
    by_cases_Q; reflexivity.
  - intros row Hin Hb.
    unfold table, brackets, labels in Hin.
    cbn [combine In] in Hin.
    destruct x as [q | | | ]; try discriminate.
    + unfold get_breakpoint.
      repeat (destruct Hin as [<- | Hin]; [ | ]); try contradiction;
        unfold in_bracket in Hb; unfold_consts;
        cbn -[PyNum.Qltb] in Hx, Hb |- *;
        by_cases_Q; try discriminate; reflexivity.
    + repeat (destruct Hin as [<- | Hin]; [ | ]); try contradiction;
        cbn in Hb |- *; try discriminate; reflexivity.
Qed.

Lemma C1_breakpoint_table_witness :
  table_label labels (PyNum.Fin (154 # 10)) = Some "Good"%string.
Proof.
  exact (proj1 (C1_breakpoint_table (PyNum.Fin (154 # 10)) eq_refl)).
Defined.

(** C5: the severity tier is a total function of the concentration (every
    input has a tier between 0 and 5), and it is monotonic: when [x <= y],
    the tier of [x] is at most the tier of [y], with tiers Good = 0 through
    Hazardous = 5. *)
Theorem C5_tier_monotone (x y : PyNum.t) :
  (exists i, tier x = Some i /\ (i <= 5)%nat)
  /\ ((x <=? y)%py = true ->
      exists i j, tier x = Some i /\ tier y = Some j /\ (i <= j)%nat).
Proof.
  split.
  - unfold tier, get_breakpoint.
    repeat match goal with
           | |- context [(x <? ?c)%py] => destruct (x <? c)%py
           end;
      eexists; (split; [reflexivity | lia]).
  - intro H. unfold tier, get_breakpoint.
    repeat match goal with
           | |- context [(y <? ?c)%py] =>
               let E := fresh "E" in
               destruct (y <? c)%py eqn:E;
               [ rewrite (lt_le_trans x y c H E) | ]
           end;
      repeat match goal with
             | |- context [(x <? ?c)%py] => destruct (x <? c)%py
             end;
      do 2 eexists; (split; [reflexivity | split; [reflexivity | lia]]).
Qed.

Lemma C5_tier_monotone_witness :
  (f15_5 <=? i250)%py = true
  /\ exists i j, tier f15_5 = Some i /\ tier i250 = Some j /\ (i <= j)%nat.
Proof.
  split; [reflexivity | ].
  apply (proj2 (C5_tier_monotone f15_5 i250)). reflexivity.
Defined.

(** C9: the classifier is total on every input, and every input strictly
    below 15.5, negative ones and minus infinity included, is Good. *)
Theorem C9_good_below_15_5 (x : PyNum.t)
  (H : (x <? f15_5)%py = true \/ (x <? PyNum.of_Z 0)%py = true) :
  get_breakpoint x = ("Good"%string, Fore.GREEN).
Proof.
  assert (H' : (x <? f15_5)%py = true).
  { destruct H as [H | H]; [exact H | now apply negative_below_15_5]. }
  unfold get_breakpoint. now rewrite H'.
Qed.

Lemma C9_good_below_15_5_witness :
  get_breakpoint (PyNum.of_Z (-3)) = ("Good"%string, Fore.GREEN).
Proof.
  apply (C9_good_below_15_5 (PyNum.of_Z (-3))). right. reflexivity.
Defined.

(** ** Running commands *)

Lemma bind_done {A B : Type} (m : M A) (k : A -> M B) h t a :
  m h = (t, Done a) ->
  bind m k h = (t ++ fst (k a (h ++ t)), snd (k a (h ++ t))).
Proof.
  intro E. unfold bind. rewrite E. now destruct (k a (h ++ t)).
Qed.

(** A command that ended normally was not cut short in its first part. *)
Lemma bind_inv_done {A B : Type} (m : M A) (k : A -> M B) h t b :
  bind m k h = (t, Done b) ->
  exists t1 a t2,
    m h = (t1, Done a) /\ k a (h ++ t1) = (t2, Done b) /\ t = t1 ++ t2.
Proof.
  unfold bind. destruct (m h) as [t1 [a | e | | ]]; try discriminate.
  destruct (k a (h ++ t1)) as [t2 o] eqn:E.
  intro H. inversion H; subst.
  now exists t1, a, t2.
Qed.

Lemma emits_only_ret {A : Type} P (a : A) : emits_only P (ret a).
Proof. intro h. constructor. Qed.

Lemma emits_only_tell P e : P e -> emits_only P (tell e).
Proof. intros H h. simpl. auto. Qed.

Lemma emits_only_print P line : P (EvPrint line) -> emits_only P (print line).
Proof. apply emits_only_tell. Qed.

Lemma emits_only_click_echo P line err :
  P (EvEcho err line) -> emits_only P (click_echo line err).
Proof. apply emits_only_tell. Qed.

Lemma emits_only_ask {A : Type} P (e : answer A -> event) ans :
  (forall r, P (e r)) -> emits_only P (ask e ans).
Proof.
  intros H h. unfold ask. destruct (ans h); simpl; auto.
Qed.

Lemma emits_only_bind {A B : Type} P (m : M A) (k : A -> M B) :
  emits_only P m -> (forall a, emits_only P (k a)) -> emits_only P (bind m k).
Proof.
  intros Hm Hk h. unfold bind.
  specialize (Hm h).
  destruct (m h) as [t1 [a | e | | ]]; simpl in *; auto.
  specialize (Hk a (h ++ t1)).
  destruct (k a (h ++ t1)) as [t2 o]; simpl in *.
  apply Forall_app. now split.
Qed.

Lemma emits_only_for_each {A : Type} P (xs : list A) body :
  (forall x, emits_only P (body x)) -> emits_only P (for_each xs body).
Proof.
  intro H. induction xs as [ | x xs IH]; simpl.
  - apply emits_only_ret.
  - apply emits_only_bind; auto.
Qed.

Lemma emits_only_while_true P fuel body :
  emits_only P body -> emits_only P (while_true fuel body).
Proof.
  intro H. induction fuel as [ | n IH]; simpl.
  - intro h. constructor.
  - apply emits_only_bind; auto.
Qed.

Create HintDb emits.

#[local] Hint Resolve emits_only_ret emits_only_tell emits_only_print
  emits_only_click_echo emits_only_ask emits_only_bind emits_only_for_each
  emits_only_while_true : emits.

(** [while True] has no normal exit. *)
Lemma while_true_never_done fuel body h :
  forall a, snd (while_true fuel body h) <> Done a.
Proof.
  revert h. induction fuel as [ | n IH]; intros h a; simpl.
  - discriminate.
  - unfold bind. destruct (body h) as [t1 [[] | e | | ]]; try discriminate.
    specialize (IH (h ++ t1) a).
    destruct (while_true n body (h ++ t1)) as [t2 o]; simpl in *. exact IH.
Qed.

(** ** The console renderers *)

Lemma print_debug_run data h :
  print_debug data h = (map EvPrint (debug_lines data), Done tt).
Proof. reflexivity. Qed.

Lemma print_pm_run data h :
  print_pm data h = ([EvEcho false (pm_line data)], Done tt).
Proof. reflexivity. Qed.

(** ** One device in one iteration *)

Lemma poll_run env debug log_only d h :
  poll env debug log_only d h =
  match read env h d with
  | Returns data =>
      if debug then (poll_events true log_only (d, data), Done tt)
      else
        match emit env (h ++ [EvRead d (Returns data)])
                (pm_fields data) (pm_tags d) with
        | Returns _ => (poll_events false log_only (d, data), Done tt)
        | Throws e => ([EvRead d (Returns data); record_of (d, data)], Raised e)
        | Hangs => ([EvRead d (Returns data); record_of (d, data)], Blocked)
        end
  | Throws e => ([EvRead d (Throws e)], Raised e)
  | Hangs => ([EvRead d Hangs], Blocked)
  end.
Proof.
  unfold poll, bind, ask.
  destruct (read env h d) as [data | e | ]; try reflexivity.
  destruct debug; [reflexivity | ].
  destruct (emit env (h ++ [EvRead d (Returns data)]) (pm_fields data) (pm_tags d))
    as [[] | e | ]; try reflexivity.
  destruct log_only; reflexivity.
Qed.

(** A poll that ended normally read a measurement and left exactly the
    events of [poll_events]. *)
Lemma poll_done env debug log_only d h t :
  poll env debug log_only d h = (t, Done tt) ->
  exists data,
    read env h d = Returns data /\ t = poll_events debug log_only (d, data).
Proof.
  rewrite poll_run.
  destruct (read env h d) as [data | e | ]; try discriminate.
  destruct debug.
  - intro H. inversion H. now exists data.
  - destruct (emit env _ _ _) as [[] | e | ]; try discriminate.
    intro H. inversion H. now exists data.
Qed.

Lemma for_each_poll_done env debug log_only devs :
  forall h t,
    for_each devs (poll env debug log_only) h = (t, Done tt) ->
    exists datas,
      length datas = length devs
      /\ t = flat_map (poll_events debug log_only) (combine devs datas).
Proof.
  induction devs as [ | d devs IH]; intros h t H.
  - inversion H. now exists [].
  - simpl in H. apply bind_inv_done in H.
    destruct H as (t1 & [] & t2 & H1 & H2 & ->).
    apply poll_done in H1. destruct H1 as (data & _ & ->).
    apply IH in H2. destruct H2 as (datas & Hlen & ->).
    exists (data :: datas). split; [simpl; congruence | reflexivity].
Qed.

(** When every read and every log write returns, the devices are all
    polled. *)
Lemma for_each_poll_total env debug log_only devs :
  (forall h d, exists data, read env h d = Returns data) ->
  (forall h f t, emit env h f t = Returns tt) ->
  forall h, snd (for_each devs (poll env debug log_only) h) = Done tt.
Proof.
  intros Hr He. induction devs as [ | d devs IH]; intro h; [reflexivity | ].
  simpl. unfold bind. rewrite poll_run.
  destruct (Hr h d) as [data ->].
  destruct debug.
  - specialize (IH (h ++ poll_events true log_only (d, data))).
    destruct (for_each devs _ _) as [t2 o]. exact IH.
  - rewrite He.
    specialize (IH (h ++ poll_events false log_only (d, data))).
    destruct (for_each devs _ _) as [t2 o]. exact IH.
Qed.

Lemma iteration_run env debug log_only devs h :
  iteration env debug log_only devs h =
  (EvPing :: fst (for_each devs (poll env debug log_only) (h ++ [EvPing])),
   snd (for_each devs (poll env debug log_only) (h ++ [EvPing]))).
Proof.
  unfold iteration, bind, tell.
  now destruct (for_each devs _ _).
Qed.

Lemma iteration_done env debug log_only devs h :
  snd (iteration env debug log_only devs h) = Done tt ->
  exists datas,
    length datas = length devs
    /\ fst (iteration env debug log_only devs h)
       = EvPing :: flat_map (poll_events debug log_only) (combine devs datas).
Proof.
  rewrite iteration_run. simpl. intro H.
  destruct (for_each devs _ _) as [t o] eqn:E. simpl in *. subst o.
  apply for_each_poll_done in E. destruct E as (datas & Hlen & ->).
  now exists datas.
Qed.

Lemma iteration_total env debug log_only devs h :
  (forall h d, exists data, read env h d = Returns data) ->
  (forall h f t, emit env h f t = Returns tt) ->
  snd (iteration env debug log_only devs h) = Done tt.
Proof.
  intros Hr He. rewrite iteration_run. simpl.
  now apply for_each_poll_total.
Qed.

(** No poll pings the watchdog. *)
Lemma poll_no_ping env debug log_only d :
  emits_only (fun e => is_ping e = false) (poll env debug log_only d).
Proof.
  unfold poll, print_debug, print_pm.
  apply emits_only_bind; [auto with emits | intro data].
  destruct debug, log_only; simpl; auto 20 with emits.
Qed.

(** In debug mode a poll only reads and prints. *)
Lemma poll_debug_only env log_only d :
  emits_only (fun e => is_emit e = false /\ (is_read e = true \/ exists l, e = EvPrint l))
    (poll env true log_only d).
Proof.
  unfold poll, print_debug.
  apply emits_only_bind; [apply emits_only_ask; intro; simpl; auto | intro data].
  simpl.
  repeat (apply emits_only_bind; [ | intros _ ]);
    apply emits_only_print; (split; [reflexivity | right; eexists; reflexivity]).
Qed.

(** In log-only mode a poll writes nothing on standard output. *)
Lemma poll_log_only_silent env d :
  emits_only (fun e => is_stdout e = false) (poll env false true d).
Proof.
  unfold poll. simpl. auto 10 with emits.
Qed.

(** The telemetry records among the events of the polled devices. *)
Lemma filter_emit_poll_events log_only xs :
  filter is_emit (flat_map (poll_events false log_only) xs) = map record_of xs.
Proof.
  induction xs as [ | x xs IH]; [reflexivity | ].
  simpl. destruct log_only; simpl; now rewrite IH.
Qed.

(** ** Text *)

Lemma append_nil_r (s : string) : (s ++ "")%string = s.
Proof. induction s as [ | c s IH]; simpl; congruence. Qed.

Lemma append_assoc (a b c : string) :
  ((a ++ b) ++ c)%string = (a ++ b ++ c)%string.
Proof. induction a as [ | x a IH]; simpl; congruence. Qed.

Lemma contains_refl (s : string) : contains s s.
Proof. exists ""%string, ""%string. simpl. now rewrite append_nil_r. Qed.

Lemma contains_head (s r : string) : contains (s ++ r) s.
Proof. now exists ""%string, r. Qed.

Lemma contains_tail (p r s : string) : contains r s -> contains (p ++ r) s.
Proof.
  intros (a & b & ->). exists (p ++ a)%string, b. now rewrite append_assoc.
Qed.

Ltac find_sub :=
  solve [ repeat first [ apply contains_refl
                       | apply contains_head
                       | apply contains_tail ] ].

(** The debug dump shows every field of the measurement. *)
Lemma debug_lines_complete (data : PMSData) :
  forall s, In s (rendered_fields data) ->
            exists line, In line (debug_lines data) /\ contains line s.
Proof.
  intros s Hs.
  assert (pick : forall k, (k < 14)%nat ->
                 contains (nth k (debug_lines data) ""%string) s ->
                 exists line, In line (debug_lines data) /\ contains line s).
  { intros k Hk Hc. eexists. split; [ | exact Hc].
    apply nth_In. exact Hk. }
  unfold rendered_fields in Hs. cbn [In] in Hs.
  repeat (destruct Hs as [<- | Hs]; [ | ]); try contradiction.
  1-3: apply (pick 1%nat); [simpl; lia | unfold debug_lines; cbn [nth]; find_sub].
  1-2: apply (pick 2%nat); [simpl; lia | unfold debug_lines; cbn [nth]; find_sub].
  1-2: apply (pick 3%nat); [simpl; lia | unfold debug_lines; cbn [nth]; find_sub].
  1-2: apply (pick 4%nat); [simpl; lia | unfold debug_lines; cbn [nth]; find_sub].
  - apply (pick 5%nat); [simpl; lia | unfold debug_lines; cbn [nth]; find_sub].
  - apply (pick 6%nat); [simpl; lia | unfold debug_lines; cbn [nth]; find_sub].
  - apply (pick 7%nat); [simpl; lia | unfold debug_lines; cbn [nth]; find_sub].
  - apply (pick 8%nat); [simpl; lia | unfold debug_lines; cbn [nth]; find_sub].
  - apply (pick 9%nat); [simpl; lia | unfold debug_lines; cbn [nth]; find_sub].
  - apply (pick 10%nat); [simpl; lia | unfold debug_lines; cbn [nth]; find_sub].
  - apply (pick 11%nat); [simpl; lia | unfold debug_lines; cbn [nth]; find_sub].
  - apply (pick 12%nat); [simpl; lia | unfold debug_lines; cbn [nth]; find_sub].
Qed.

(** ** Telemetry fields *)

Lemma pm_fields_eq (data : PMSData) :
  pm_fields data =
  [ ("pm1_0_cf1", pm1_0_cf1 data); ("pm2_5_cf1", pm2_5_cf1 data);
    ("pm10_0_cf1", pm10_0_cf1 data); ("pm1_0_atm", pm1_0_atm data);
    ("pm2_5_atm", pm2_5_atm data); ("pm10_0_atm", pm10_0_atm data) ]%string.
Proof. reflexivity. Qed.

Lemma pm_fields_keys (data : PMSData) :
  (forall k, In k (map fst (pm_fields data)) <-> In k PM_KEYS)
  /\ NoDup (map fst (pm_fields data))
  /\ (forall k, In k OTHER_KEYS -> ~ In k (map fst (pm_fields data))).
Proof.
  rewrite pm_fields_eq. cbn [map fst].
  split; [ | split].
  - intro k. unfold PM_KEYS. simpl. tauto.
  - repeat constructor; simpl; intuition discriminate.
  - intros k Hk Hin. unfold OTHER_KEYS in Hk. simpl in Hk, Hin.
    repeat (destruct Hk as [<- | Hk]; [ | ]); try contradiction;
      intuition discriminate.
Qed.

Lemma filter_none {A : Type} (f : A -> bool) (xs : list A) :
  Forall (fun x => f x = false) xs -> filter f xs = [].
Proof.
  induction 1 as [ | x xs Hx _ IH]; simpl; [reflexivity | ].
  now rewrite Hx.
Qed.

(** ** Events of the whole run *)

(** A property of the start-up events and of every iteration is a property
    of every event of [main]. *)
Lemma emits_only_main (P : event -> Prop) env debug log_only fuel port log_path :
  (forall msg, P (EvLog msg)) ->
  (forall err line, P (EvEcho err line)) ->
  P (EvFindDevices port) ->
  P (EvInfluxdbLogger log_path) ->
  P EvReady ->
  (forall devs, emits_only P (iteration env debug log_only devs)) ->
  emits_only P (main env debug log_only fuel port log_path).
Proof.
  intros Hlog Hecho Hfind Hnew Hready Hiter.
  unfold main, configure_logging, log_debug.
  repeat first
    [ apply emits_only_bind; [ | intros _ ]
    | apply emits_only_tell; solve [auto]
    | apply emits_only_click_echo; solve [auto]
    | apply emits_only_ret
    | apply emits_only_while_true; apply Hiter
    | apply emits_only_for_each; intro
    | match goal with
      | |- emits_only _ (if ?b then _ else _) => destruct b
      | |- emits_only _ (match ?o with Some _ => _ | None => _ end) => destruct o
      end ].
Qed.

(** In debug mode an iteration pings, reads and prints, and nothing else. *)
Lemma iteration_debug_only env log_only devs :
  emits_only
    (fun e => is_emit e = false
              /\ (e = EvPing \/ is_read e = true \/ exists l, e = EvPrint l))
    (iteration env true log_only devs).
Proof.
  unfold iteration. apply emits_only_bind.
  - apply emits_only_tell. split; [reflexivity | now left].
  - intros _. apply emits_only_for_each. intros d h.
    eapply Forall_impl; [ | apply (poll_debug_only env log_only d h)].
    simpl. intros e [He Hk]. split; [exact He | now right].
Qed.

(** In debug mode the whole run never calls [emit]. *)
Lemma main_debug_no_emit env log_only fuel port log_path h :
  filter is_emit (fst (main env true log_only fuel port log_path h)) = [].
Proof.
  apply filter_none.
  apply (emits_only_main (fun e => is_emit e = false)); try reflexivity.
  intros devs h'.
  eapply Forall_impl; [ | apply (iteration_debug_only env log_only devs h')].
  simpl. tauto.
Qed.

(** ** The iteration *)

(** The pings of one iteration. *)
Lemma iteration_pings env debug log_only devs h :
  filter is_ping (fst (iteration env debug log_only devs h)) = [EvPing].
Proof.
  rewrite iteration_run. cbn [fst filter is_ping]. f_equal.
  apply filter_none.
  apply (emits_only_for_each _ devs (poll env debug log_only)).
  intro d. apply poll_no_ping.
Qed.

(** An iteration returns, raises or blocks; it is never left unfinished. *)
Lemma iteration_not_running env debug log_only devs h :
  snd (iteration env debug log_only devs h) <> Running.
Proof.
  rewrite iteration_run. cbn [snd].
  generalize (h ++ [EvPing]). clear h.
  induction devs as [ | d devs IH]; intro h; [discriminate | ].
  cbn [for_each]. unfold bind. rewrite poll_run.
  destruct (read env h d) as [data | e | ]; try discriminate.
  destruct debug.
  - specialize (IH (h ++ poll_events true log_only (d, data))).
    destruct (for_each devs _ _) as [t o]. exact IH.
  - destruct (emit env _ _ _) as [[] | e | ]; try discriminate.
    specialize (IH (h ++ poll_events false log_only (d, data))).
    destruct (for_each devs _ _) as [t o]. exact IH.
Qed.

(** A loop observed for [fuel] iterations and still running has pinged
    [fuel] times. *)
Lemma loop_pings env debug log_only devs fuel :
  forall h,
    snd (while_true fuel (iteration env debug log_only devs) h) = Running ->
    length (filter is_ping
              (fst (while_true fuel (iteration env debug log_only devs) h)))
    = fuel.
Proof.
  induction fuel as [ | n IH]; intros h H; [reflexivity | ].
  cbn [while_true] in *. unfold bind in *.
  pose proof (iteration_pings env debug log_only devs h) as Hp.
  pose proof (iteration_not_running env debug log_only devs h) as Hr.
  destruct (iteration env debug log_only devs h) as [t1 [[] | e | | ]];
    cbn [fst snd] in *; try discriminate; try congruence.
  specialize (IH (h ++ t1)).
  destruct (while_true n _ (h ++ t1)) as [t2 o]; cbn [fst snd] in *.
  rewrite filter_app, Hp, length_app. cbn [length Nat.add]. f_equal. now apply IH.
Qed.

(** C2: every iteration of the polling loop emits exactly one liveness
    ping, as its first event and so before any device read of that
    iteration, in every mode and whatever the reads of the iteration do
    (return, raise or hang); a loop that has run [fuel] iterations has
    pinged [fuel] times. *)
Theorem C2_one_ping_per_iteration env debug log_only devs h :
  (exists rest,
     fst (iteration env debug log_only devs h) = EvPing :: rest
     /\ filter is_ping rest = [])
  /\ length (filter is_ping (fst (iteration env debug log_only devs h))) = 1%nat
  /\ (forall pre e post,
        fst (iteration env debug log_only devs h) = pre ++ e :: post ->
        is_read e = true -> In EvPing pre)
  /\ (forall fuel,
        snd (while_true fuel (iteration env debug log_only devs) h) = Running ->
        length (filter is_ping
                  (fst (while_true fuel (iteration env debug log_only devs) h)))
        = fuel).
Proof.
  pose proof (iteration_pings env debug log_only devs h) as Hp.
  split; [ | split; [ | split]].
  - rewrite iteration_run in *. cbn [fst filter is_ping] in Hp.
    eexists. split; [reflexivity | ]. congruence.
  - now rewrite Hp.
  - rewrite iteration_run. cbn [fst].
    intros [ | e0 pre] e post H Hread.
    + simpl in H. inversion H; subst e. discriminate.
    + simpl in H. inversion H. now left.
  - intro fuel. apply loop_pings.
Qed.

Lemma C2_one_ping_per_iteration_witness :
  length (filter is_ping
            (fst (while_true 3 (iteration sample_env false false [sample_dev]) [])))
  = 3%nat.
Proof.
  destruct (C2_one_ping_per_iteration sample_env false false [sample_dev] [])
    as (_ & _ & _ & Hloop).
  apply Hloop. reflexivity.
Defined.

(** The spec's end-to-end scenario, observed for one iteration. *)
Example end_to_end :
  main sample_env false false 1 None "measurements.log" []
  = ([ EvFindDevices None;
       EvEcho true (warning (denied "ttyUSB0"));
       EvEcho true (warning (denied "ttyUSB1"));
       EvInfluxdbLogger "measurements.log";
       EvEcho false
         (writing {| MEASUREMENT := "pms7003"; path := "measurements.log" |});
       EvEcho false (beginning sample_dev);
       EvReady;
       EvPing;
       EvRead sample_dev (Returns sample_data);
       EvEmit [ ("pm1_0_cf1", 5%Z); ("pm2_5_cf1", 17%Z); ("pm10_0_cf1", 19%Z);
                ("pm1_0_atm", 5%Z); ("pm2_5_atm", 16%Z); ("pm10_0_atm", 18%Z) ]%string
              [ ("type", "PMS7003"); ("id", "ttyUSB2") ]%string;
       EvEcho false
         ("PM 1.0: 5  PM 2.5: " ++ Fore.YELLOW ++ "16" ++ Style.RESET_ALL
          ++ "  PM 10: 18  AQI: " ++ Fore.YELLOW ++ "Moderate" ++ Style.RESET_ALL)%string ],
     Running).
Proof. reflexivity. Qed.

Example debug_dump_header :
  nth 1 (debug_lines sample_data) ""%string
  = ("Header : B M " ++ TAB ++ TAB ++ " | Frame length : 28")%string.
Proof. reflexivity. Qed.

Example ping_despite_read_error :
  iteration broken_env false false [sample_dev] []
  = ([EvPing; EvRead sample_dev (Throws "SerialException")],
     Raised "SerialException").
Proof. reflexivity. Qed.

(** C3: in normal mode an iteration that runs to its end dispatches exactly
    one telemetry record per device, in discovery order, built from the
    measurement just read from that device; its field keys are exactly
    pm1_0_cf1, pm1_0_atm, pm2_5_cf1, pm2_5_atm, pm10_0_cf1 and pm10_0_atm
    (no header, frame length, particle count, reserved or checksum field),
    and its tags are type = PMS7003 and id = the device's id, for every
    measurement.  The iteration runs to its end whenever every read and
    every log write returns. *)
Theorem C3_one_record_per_device env log_only devs h :
  (snd (iteration env false log_only devs h) = Done tt ->
   exists datas,
     length datas = length devs
     /\ fst (iteration env false log_only devs h)
        = EvPing :: flat_map (poll_events false log_only) (combine devs datas)
     /\ filter is_emit (fst (iteration env false log_only devs h))
        = map record_of (combine devs datas))
  /\ ((forall h d, exists data, read env h d = Returns data) ->
      (forall h f t, emit env h f t = Returns tt) ->
      snd (iteration env false log_only devs h) = Done tt)
  /\ (forall d data,
        record_of (d, data)
        = EvEmit (pm_fields data) [("type", "PMS7003"); ("id", id d)]%string
        /\ (forall k, In k (map fst (pm_fields data)) <-> In k PM_KEYS)
        /\ NoDup (map fst (pm_fields data))
        /\ (forall k, In k OTHER_KEYS -> ~ In k (map fst (pm_fields data)))).
Proof.
  split; [ | split].
  - intro Hdone. apply iteration_done in Hdone.
    destruct Hdone as (datas & Hlen & Ht).
    exists datas. split; [exact Hlen | split; [exact Ht | ]].
    rewrite Ht. simpl. apply filter_emit_poll_events.
  - intros Hr He. now apply iteration_total.
  - intros d data. split; [reflexivity | apply pm_fields_keys].
Qed.

Lemma C3_one_record_per_device_witness :
  filter is_emit (fst (iteration sample_env false false [sample_dev] []))
  = [ EvEmit [ ("pm1_0_cf1", 5%Z); ("pm2_5_cf1", 17%Z); ("pm10_0_cf1", 19%Z);
               ("pm1_0_atm", 5%Z); ("pm2_5_atm", 16%Z); ("pm10_0_atm", 18%Z) ]%string
             [ ("type", "PMS7003"); ("id", "ttyUSB2") ]%string ].
Proof.
  destruct (C3_one_record_per_device sample_env false [sample_dev] [])
    as (Hshape & Htotal & _).
  assert (Hdone : snd (iteration sample_env false false [sample_dev] []) = Done tt).
  { apply Htotal.
    - intros h d. now exists sample_data.
    - reflexivity. }
  destruct (Hshape Hdone) as (datas & _ & _ & _).
  reflexivity.
Defined.

(** C6: in debug mode no iteration ever calls the log writer's [emit]:
    the events of an iteration are the ping, the reads and printed lines,
    so neither a telemetry record nor the summary line with the AQI
    category is produced; for each measurement read, the fourteen lines of
    the debug dump are printed instead, and they show every field of the
    measurement.  The same holds for the whole run of [main]. *)
Theorem C6_debug_never_emits env log_only devs h :
  filter is_emit (fst (iteration env true log_only devs h)) = []
  /\ Forall (fun e => e = EvPing \/ is_read e = true \/ exists l, e = EvPrint l)
       (fst (iteration env true log_only devs h))
  /\ (snd (iteration env true log_only devs h) = Done tt ->
      exists datas,
        length datas = length devs
        /\ fst (iteration env true log_only devs h)
           = EvPing
             :: flat_map (fun x => EvRead (fst x) (Returns (snd x))
                                   :: map EvPrint (debug_lines (snd x)))
                  (combine devs datas))
  /\ (forall data s, In s (rendered_fields data) ->
        exists line, In line (debug_lines data) /\ contains line s)
  /\ (forall fuel port log_path,
        filter is_emit (fst (main env true log_only fuel port log_path h)) = []).
Proof.
  pose proof (iteration_debug_only env log_only devs) as Hiter.
  split; [ | split; [ | split; [ | split]]].
  - apply filter_none. eapply Forall_impl; [ | apply (Hiter h)].
    simpl. tauto.
  - eapply Forall_impl; [ | apply (Hiter h)]. simpl. tauto.
  - intro Hdone. apply iteration_done in Hdone. exact Hdone.
  - apply debug_lines_complete.
  - intros fuel port log_path. apply main_debug_no_emit.
Qed.

Lemma C6_debug_never_emits_witness :
  exists datas,
    length datas = 1%nat
    /\ fst (iteration sample_env true false [sample_dev] [])
       = EvPing
         :: flat_map (fun x => EvRead (fst x) (Returns (snd x))
                               :: map EvPrint (debug_lines (snd x)))
              (combine [sample_dev] datas).
Proof.
  destruct (C6_debug_never_emits sample_env false [sample_dev] [])
    as (_ & _ & Hshape & _).
  apply Hshape. reflexivity.
Defined.

(** C7: in log-only mode (not debug) an iteration writes nothing on
    standard output, so no summary line, and an iteration that runs to its
    end still dispatches the telemetry record of every device: its events
    are the ping and, per device, the read and the record.  The records are
    the same as without log-only; only the summary lines are missing. *)
Theorem C7_log_only_still_dispatches env devs h :
  Forall (fun e => is_stdout e = false) (fst (iteration env false true devs h))
  /\ (snd (iteration env false true devs h) = Done tt ->
      exists datas,
        length datas = length devs
        /\ fst (iteration env false true devs h)
           = EvPing
             :: flat_map (fun x => [EvRead (fst x) (Returns (snd x)); record_of x])
                  (combine devs datas)
        /\ filter is_emit (fst (iteration env false true devs h))
           = map record_of (combine devs datas))
  /\ (forall xs,
        filter is_emit (flat_map (poll_events false true) xs)
        = filter is_emit (flat_map (poll_events false false) xs)
        /\ filter is_stdout (flat_map (poll_events false false) xs)
           = map (fun x => EvEcho false (pm_line (snd x))) xs).
Proof.
  split; [ | split].
  - unfold iteration.
    apply (emits_only_bind (fun e => is_stdout e = false)).
    + apply emits_only_tell. reflexivity.
    + intros _. apply emits_only_for_each. intro d. apply poll_log_only_silent.
  - intro Hdone. apply iteration_done in Hdone.
    destruct Hdone as (datas & Hlen & Ht).
    exists datas. split; [exact Hlen | split; [exact Ht | ]].
    rewrite Ht. simpl. apply filter_emit_poll_events.
  - intro xs. split.
    + now rewrite !filter_emit_poll_events.
    + induction xs as [ | x xs IH]; [reflexivity | ].
      simpl. now rewrite IH.
Qed.

Lemma C7_log_only_still_dispatches_witness :
  exists datas,
    length datas = 1%nat
    /\ fst (iteration sample_env false true [sample_dev] [])
       = EvPing
         :: flat_map (fun x => [EvRead (fst x) (Returns (snd x)); record_of x])
              (combine [sample_dev] datas)
    /\ filter is_emit (fst (iteration sample_env false true [sample_dev] []))
       = map record_of (combine [sample_dev] datas).
Proof.
  destruct (C7_log_only_still_dispatches sample_env [sample_dev] [])
    as (_ & Hshape & _).
  apply Hshape. reflexivity.
Defined.

(** ** Discovery *)

Lemma devices_spec possible d :
  In d (devices possible) <-> exists p, In p possible /\ dev p = Some d.
Proof.
  induction possible as [ | p ps IH]; simpl.
  - split; [contradiction | intros (p & [] & _)].
  - destruct (dev p) as [d0 | ] eqn:E; simpl; rewrite ?IH; split.
    + intros [<- | (q & Hq & Hd)]; [exists p; auto | exists q; auto].
    + intros (q & [<- | Hq] & Hd); [left; congruence | right; exists q; auto].
    + intros (q & Hq & Hd). exists q; auto.
    + intros (q & [<- | Hq] & Hd); [congruence | exists q; auto].
Qed.

Lemma devices_usable possible :
  usable possible <-> devices possible <> [].
Proof.
  split.
  - intros (p & d & Hp & Hd) E.
    assert (H : In d (devices possible)) by (apply devices_spec; eauto).
    rewrite E in H. contradiction.
  - intro H. destruct (devices possible) as [ | d ds] eqn:E; [congruence | ].
    assert (Hd : In d (devices possible)) by (rewrite E; now left).
    apply devices_spec in Hd. destruct Hd as (p & Hp & Hd). now exists p, d.
Qed.

Lemma no_device_not_usable possible :
  Forall (fun p => dev p = None) possible <-> ~ usable possible.
Proof.
  rewrite Forall_forall. split.
  - intros H (p & d & Hp & Hd). rewrite (H p Hp) in Hd. discriminate.
  - intros H p Hp. destruct (dev p) as [d | ] eqn:E; [ | reflexivity].
    exfalso. apply H. now exists p, d.
Qed.

Lemma for_each_warnings possible h :
  for_each possible
    (fun p => match dev p with
              | None => click_echo (warning p) true
              | Some _ => ret tt
              end) h
  = (warnings possible, Done tt).
Proof.
  revert h. induction possible as [ | p ps IH]; intro h; [reflexivity | ].
  cbn [for_each]. unfold bind, warnings, failed. cbn [filter].
  destruct (dev p); cbn; rewrite IH; reflexivity.
Qed.

Lemma for_each_beginning devs h :
  for_each devs (fun d => click_echo (beginning d) false) h
  = (map (fun d => EvEcho false (beginning d)) devs, Done tt).
Proof.
  revert h. induction devs as [ | d ds IH]; intro h; [reflexivity | ].
  cbn [for_each]. unfold bind. cbn. rewrite IH. reflexivity.
Qed.

Lemma any_nonempty {A : Type} (x : A) xs : any (fun _ => true) (x :: xs) = true.
Proof. reflexivity. Qed.

(** The run of [main]: without a device it gives up and returns; with one
    it starts up and loops. *)
Lemma configure_logging_run debug h :
  configure_logging debug h
  = (if debug then [EvLog "configured debug logging"] else [], Done tt).
Proof. now destruct debug. Qed.

Lemma log_debug_run debug msg h :
  log_debug debug msg h = (if debug then [EvLog msg] else [], Done tt).
Proof. now destruct debug. Qed.

Lemma tell_run e h : tell e h = ([e], Done tt).
Proof. reflexivity. Qed.

Lemma click_echo_run line err h :
  click_echo line err h = ([EvEcho err line], Done tt).
Proof. reflexivity. Qed.

Tactic Notation "run_step" uconstr(E) :=
  erewrite (bind_done _ _ _ _ tt E); cbv beta; cbn [fst snd].

Lemma main_run env debug log_only fuel port log_path h :
  main env debug log_only fuel port log_path h =
  match devices (find_devices env port) with
  | [] => (giving_up env debug port, Done tt)
  | devs =>
      let s := startup env debug port log_path in
      let r := while_true fuel (iteration env debug log_only devs) (h ++ s) in
      (s ++ fst r, snd r)
  end.
Proof.
  unfold main, giving_up, startup.
  run_step (configure_logging_run debug h).
  run_step (log_debug_run debug "looking for possible PMS7003 devices..."
              (h ++ (if debug then [EvLog "configured debug logging"] else []))).
  run_step (tell_run (EvFindDevices port)
              ((h ++ (if debug then [EvLog "configured debug logging"] else []))
               ++ (if debug
                   then [EvLog "looking for possible PMS7003 devices..."]
                   else []))).
  destruct (find_devices env port) as [ | p ps] eqn:Epos.
  - destruct debug; reflexivity.
  - rewrite any_nonempty. cbn [negb].
    run_step (for_each_warnings (p :: ps) _).
    destruct (devices (p :: ps)) as [ | d ds] eqn:Edev.
    + destruct debug; reflexivity.
    + rewrite any_nonempty. cbn [negb].
      run_step (tell_run (EvInfluxdbLogger log_path) _).
      run_step (click_echo_run (writing (new_logger env log_path)) false _).
      run_step (for_each_beginning (d :: ds) _).
      run_step (tell_run EvReady _).
      destruct debug; cbn [log_events app];
        repeat (rewrite <- app_assoc; cbn [app]); reflexivity.
Qed.

(** C4: when no result of discovery carries a device (an empty sequence
    included), [main] returns normally, for every number of observed
    iterations, after the log records, the discovery call and the lines
    on the error stream: it never creates the log writer, never calls
    [ready()] or [ping()], never reads a device and never emits.  An event
    of the running phase occurs only if some result carries a device. *)
Theorem C4_no_device_clean_return env debug log_only fuel port log_path h :
  (Forall (fun p => dev p = None) (find_devices env port) ->
   main env debug log_only fuel port log_path h
   = (giving_up env debug port, Done tt)
   /\ Forall (fun e => is_running e = false) (giving_up env debug port))
  /\ (forall e,
        In e (fst (main env debug log_only fuel port log_path h)) ->
        is_running e = true -> usable (find_devices env port)).
Proof.
  assert (Hquiet : Forall (fun e => is_running e = false) (giving_up env debug port)).
  { unfold giving_up. apply Forall_app. split.
    - destruct debug; repeat constructor.
    - constructor; [reflexivity | ].
      destruct (find_devices env port) as [ | p ps].
      + repeat constructor.
      + apply Forall_app. split; [ | repeat constructor].
        unfold warnings. apply Forall_map. apply Forall_forall. reflexivity. }
  split.
  - intro Hnone. split; [ | exact Hquiet].
    rewrite main_run.
    apply no_device_not_usable in Hnone.
    destruct (devices (find_devices env port)) as [ | d ds] eqn:E; [reflexivity | ].
    exfalso. apply Hnone. apply devices_usable. rewrite E. discriminate.
  - intros e Hin Hrun. apply devices_usable.
    rewrite main_run in Hin.
    destruct (devices (find_devices env port)) as [ | d ds]; [ | discriminate].
    exfalso. simpl in Hin.
    rewrite Forall_forall in Hquiet. rewrite (Hquiet e Hin) in Hrun.
    discriminate.
Qed.

Lemma C4_no_device_clean_return_witness :
  main no_device_env false false 5 None "measurements.log" []
  = ([ EvFindDevices None;
       EvEcho true (warning (denied "ttyUSB0"));
       EvEcho true (warning (denied "ttyUSB1"));
       EvEcho true NO_PMS7003 ],
     Done tt).
Proof.
  destruct (C4_no_device_clean_return no_device_env false false 5 None
              "measurements.log" []) as [H _].
  apply H. repeat constructor.
Defined.

(** The warnings are part of every run that found a candidate port. *)
Lemma main_warnings env debug log_only fuel port log_path h :
  find_devices env port <> [] ->
  exists pre post,
    fst (main env debug log_only fuel port log_path h)
    = pre ++ warnings (find_devices env port) ++ post
    /\ pre = log_events debug ++ [EvFindDevices port].
Proof.
  intro Hne. rewrite main_run.
  exists (log_events debug ++ [EvFindDevices port]).
  destruct (devices (find_devices env port)) as [ | d ds] eqn:E.
  - exists [EvEcho true NO_PMS7003]. split; [ | reflexivity].
    unfold giving_up. cbn [fst].
    destruct (find_devices env port); [congruence | ].
    now rewrite <- !app_assoc.
  - eexists. split; [ | reflexivity].
    cbn [fst]. unfold startup.
    rewrite <- !app_assoc. reflexivity.
Qed.

(** C8: for every result of discovery that carries no device, a warning
    made of the description, the port path and the error message is
    written to the error stream; the warnings of all failed results appear
    in the run, in discovery order, so a failure never stops the processing
    of the remaining results. *)
Theorem C8_every_failure_reported env debug log_only fuel only log_path h p :
  In p (find_devices env only) ->
  dev p = None ->
  In (EvEcho true (warning p))
     (fst (main env debug log_only fuel only log_path h))
  /\ contains (warning p) (port p)
  /\ contains (warning p) (desc p)
  /\ (forall msg, error p = Some msg -> contains (warning p) msg)
  /\ exists pre post,
       fst (main env debug log_only fuel only log_path h)
       = pre
         ++ map (fun q => EvEcho true (warning q)) (failed (find_devices env only))
         ++ post.
Proof.
  intros Hin Hdev.
  assert (Hne : find_devices env only <> []).
  { intro E. rewrite E in Hin. contradiction. }
  destruct (main_warnings env debug log_only fuel only log_path h Hne)
    as (pre & post & Ht & _).
  split; [ | split; [ | split; [ | split]]].
  - rewrite Ht. apply in_or_app. right. apply in_or_app. left.
    unfold warnings. apply in_map_iff. exists p. split; [reflexivity | ].
    unfold failed. apply filter_In. split; [exact Hin | ]. now rewrite Hdev.
  - unfold warning. find_sub.
  - unfold warning. find_sub.
  - intros msg Hmsg. unfold warning. rewrite Hmsg. cbn [str_opt]. find_sub.
  - now exists pre, post.
Qed.

Lemma C8_every_failure_reported_witness :
  In (EvEcho true (warning (denied "ttyUSB1")))
     (fst (main sample_env false false 2 None "measurements.log" []))
  /\ contains (warning (denied "ttyUSB1")) "Permission denied".
Proof.
  destruct (C8_every_failure_reported sample_env false false 2 None
              "measurements.log" [] (denied "ttyUSB1"))
    as (Hin & _ & _ & Hmsg & _).
  - simpl. tauto.
  - reflexivity.
  - split; [exact Hin | apply Hmsg; reflexivity].
Defined.

(** C10: whenever some result of discovery carries a device, [main]
    creates the log writer for [log_path] and announces its path on
    standard output, right after the warnings and before [ready()], and
    this in debug mode as in normal mode; in debug mode no record is ever
    emitted to it. *)
Theorem C10_sink_opened_in_any_mode env debug log_only fuel port log_path h :
  usable (find_devices env port) ->
  (exists pre post,
     fst (main env debug log_only fuel port log_path h)
     = pre
       ++ EvInfluxdbLogger log_path
          :: EvEcho false (writing (new_logger env log_path))
          :: post
     /\ Forall (fun e => is_running e = false) pre
     /\ In EvReady post)
  /\ contains (writing (new_logger env log_path)) (path (new_logger env log_path))
  /\ filter is_emit (fst (main env true log_only fuel port log_path h)) = [].
Proof.
  intro Hus. split; [ | split].
  - rewrite main_run. apply devices_usable in Hus.
    destruct (devices (find_devices env port)) as [ | d ds] eqn:E; [congruence | ].
    cbn [fst]. unfold startup.
    exists (log_events debug ++ [EvFindDevices port]
            ++ warnings (find_devices env port)).
    eexists. split; [ | split].
    + rewrite <- !app_assoc. cbn [app]. reflexivity.
    + apply Forall_app. split; [destruct debug; repeat constructor | ].
      constructor; [reflexivity | ].
      unfold warnings. apply Forall_map. apply Forall_forall. reflexivity.
    + apply in_or_app. right. now left.
  - unfold writing. find_sub.
  - apply main_debug_no_emit.
Qed.

Lemma C10_sink_opened_in_any_mode_witness :
  exists pre post,
    fst (main sample_env true false 1 None "measurements.log" [])
    = pre
      ++ EvInfluxdbLogger "measurements.log"
         :: EvEcho false (writing (new_logger sample_env "measurements.log"))
         :: post
    /\ Forall (fun e => is_running e = false) pre
    /\ In EvReady post.
Proof.
  apply (C10_sink_opened_in_any_mode sample_env true false 1 None
           "measurements.log" []).
  exists (found sample_dev), sample_dev. simpl. tauto.
Defined.

(** * Further properties *)

(** ** The classifier on sensor values *)

(** A finite number is below an integer-and-a-half exactly when the integer
    it comes from is at most that integer. *)
Lemma lt_half (n k : Z) :
  (PyNum.of_Z n <? PyNum.Fin (2 * k + 1 # 2))%py = (n <=? k)%Z.
Proof.
  unfold PyNum.of_Z, PyNum.lt.
  destruct (Qltb_spec (inject_Z n) (2 * k + 1 # 2)) as [H | H];
    destruct (Z.leb_spec n k) as [L | L]; try reflexivity;
    unfold Qlt, inject_Z in H; cbn [Qnum Qden] in H; lia.
Qed.

Lemma lt_int (n k : Z) :
  (PyNum.of_Z n <? PyNum.of_Z k)%py = (n <? k)%Z.
Proof.
  unfold PyNum.of_Z, PyNum.lt.
  destruct (Qltb_spec (inject_Z n) (inject_Z k)) as [H | H];
    destruct (Z.ltb_spec n k) as [L | L]; try reflexivity;
    unfold Qlt, inject_Z in H; cbn [Qnum Qden] in H; lia.
Qed.

(** X1: on the integer readings the sensor delivers, the half-integer
    breakpoints act as integer thresholds: up to 15 is Good, 16 to 40
    Moderate, 41 to 65 Unhealthy for Certain Groups, 66 to 149 Unhealthy,
    150 to 249 Very Unhealthy, 250 and more Hazardous. *)
Theorem get_breakpoint_int (n : Z) :
  fst (get_breakpoint (PyNum.of_Z n))
  = (if (n <=? 15)%Z then "Good"
     else if (n <=? 40)%Z then "Moderate"
     else if (n <=? 65)%Z then "Unhealthy for Certain Groups"
     else if (n <=? 149)%Z then "Unhealthy"
     else if (n <=? 249)%Z then "Very Unhealthy"
     else "Hazardous")%string.
Proof.
  unfold get_breakpoint, i150, i250.
  change f15_5 with (PyNum.Fin (2 * 15 + 1 # 2)).
  change f40_5 with (PyNum.Fin (2 * 40 + 1 # 2)).
  change f65_5 with (PyNum.Fin (2 * 65 + 1 # 2)).
  rewrite !lt_half, !lt_int.
  replace (n <? 150)%Z with (n <=? 149)%Z by (apply Bool.eq_true_iff_eq; rewrite Z.leb_le, Z.ltb_lt; lia).
  replace (n <? 250)%Z with (n <=? 249)%Z by (apply Bool.eq_true_iff_eq; rewrite Z.leb_le, Z.ltb_lt; lia).
  repeat match goal with
         | |- context [if ?b then _ else _] => destruct b
         end; reflexivity.
Qed.

(** The thresholds ascend: being below one is being below the next. *)
Lemma thresholds_ascend (x : PyNum.t) :
  ((x <? f15_5)%py = true -> (x <? f40_5)%py = true)
  /\ ((x <? f40_5)%py = true -> (x <? f65_5)%py = true)
  /\ ((x <? f65_5)%py = true -> (x <? i150)%py = true)
  /\ ((x <? i150)%py = true -> (x <? i250)%py = true).
Proof.
  repeat split; intro H; eapply lt_trans; try exact H; reflexivity.
Qed.

(** X2: the label tells the bracket, for every input: a label is returned
    exactly when the input is below its threshold and not below the
    previous one; Hazardous is returned exactly when the input is not below
    250, which is the case of plus infinity and of NaN. *)
Theorem label_tells_bracket (x : PyNum.t) :
  (fst (get_breakpoint x) = "Good"%string <-> (x <? f15_5)%py = true)
  /\ (fst (get_breakpoint x) = "Moderate"%string
      <-> (x <? f15_5)%py = false /\ (x <? f40_5)%py = true)
  /\ (fst (get_breakpoint x) = "Unhealthy for Certain Groups"%string
      <-> (x <? f40_5)%py = false /\ (x <? f65_5)%py = true)
  /\ (fst (get_breakpoint x) = "Unhealthy"%string
      <-> (x <? f65_5)%py = false /\ (x <? i150)%py = true)
  /\ (fst (get_breakpoint x) = "Very Unhealthy"%string
      <-> (x <? i150)%py = false /\ (x <? i250)%py = true)
  /\ (fst (get_breakpoint x) = "Hazardous"%string <-> (x <? i250)%py = false).
Proof.
  destruct (thresholds_ascend x) as (H1 & H2 & H3 & H4).
  unfold get_breakpoint.
  destruct (x <? f15_5)%py, (x <? f40_5)%py, (x <? f65_5)%py,
    (x <? i150)%py, (x <? i250)%py;
    cbn [fst];
    try (specialize (H1 eq_refl)); try (specialize (H2 eq_refl));
    try (specialize (H3 eq_refl)); try (specialize (H4 eq_refl));
    try discriminate;
    repeat split; intros; try discriminate; try reflexivity;
    repeat match goal with H : _ /\ _ |- _ => destruct H end;
    try discriminate.
Qed.

(** ** The summary line *)

Lemma contains_head3 (a b c r : string) :
  contains (a ++ b ++ c ++ r) (a ++ b ++ c).
Proof. exists ""%string, r. cbn. now rewrite !append_assoc. Qed.

(** X3: the summary line of [print_pm] is made of the three atmospheric
    values only: measurements that agree on them print the same line,
    whatever their CF=1 values, counts, header or checksum.  The PM 2.5
    value and the AQI label are both wrapped in the style of the bracket of
    the PM 2.5 atmospheric value and followed by a reset. *)
Theorem print_pm_atmospheric (a b : PMSData)
  (H1 : pm1_0_atm a = pm1_0_atm b)
  (H25 : pm2_5_atm a = pm2_5_atm b)
  (H10 : pm10_0_atm a = pm10_0_atm b) :
  (forall h, print_pm a h = print_pm b h)
  /\ contains (pm_line a)
       (snd (get_breakpoint (PyNum.of_Z (pm2_5_atm a)))
        ++ str (pm2_5_atm a) ++ Style.RESET_ALL)
  /\ contains (pm_line a)
       (snd (get_breakpoint (PyNum.of_Z (pm2_5_atm a)))
        ++ fst (get_breakpoint (PyNum.of_Z (pm2_5_atm a)))
        ++ Style.RESET_ALL)
  /\ contains (pm_line a) (str (pm1_0_atm a))
  /\ contains (pm_line a) (str (pm10_0_atm a)).
Proof.
  split.
  - intro h. unfold print_pm, pm_line. now rewrite H1, H25, H10.
  - unfold pm_line.
    destruct (get_breakpoint (PyNum.of_Z (pm2_5_atm a))) as [aqi style].
    cbn [fst snd map String.concat].
    rewrite !append_assoc.
    repeat split; try find_sub.
    do 6 apply contains_tail. apply contains_head3.
Qed.

Lemma print_pm_atmospheric_witness :
  print_pm sample_data [] = print_pm other_data [].
Proof.
  apply (print_pm_atmospheric sample_data other_data); reflexivity.
Defined.

(** ** The shape of a run *)

Lemma poll_loop_events env debug log_only d :
  emits_only (fun e => is_loop_event e = true) (poll env debug log_only d).
Proof.
  unfold poll, print_debug, print_pm.
  apply emits_only_bind; [auto with emits | intro data].
  destruct debug, log_only; simpl; auto 20 with emits.
Qed.

Lemma iteration_loop_events env debug log_only devs :
  emits_only (fun e => is_loop_event e = true)
    (iteration env debug log_only devs).
Proof.
  unfold iteration. apply emits_only_bind.
  - now apply emits_only_tell.
  - intros _. apply emits_only_for_each. apply poll_loop_events.
Qed.

Lemma loop_events env debug log_only devs fuel h :
  Forall (fun e => is_loop_event e = true)
    (fst (while_true fuel (iteration env debug log_only devs) h)).
Proof.
  apply (emits_only_while_true (fun e => is_loop_event e = true)).
  apply iteration_loop_events.
Qed.

Lemma filter_one {A : Type} (f : A -> bool) pre e post :
  Forall (fun x => f x = false) pre -> f e = true ->
  Forall (fun x => f x = false) post ->
  filter f (pre ++ e :: post) = [e].
Proof.
  intros Hpre He Hpost.
  rewrite filter_app. cbn [filter]. rewrite He.
  now rewrite (filter_none f pre Hpre), (filter_none f post Hpost).
Qed.

Ltac pieces :=
  repeat first
    [ apply Forall_nil
    | apply Forall_cons; [ reflexivity || (repeat split; reflexivity) | ]
    | apply Forall_app; split
    | apply Forall_map; apply Forall_forall; intros; reflexivity
    | apply Forall_map; apply Forall_forall; intros; repeat split; reflexivity
    | match goal with
      | |- Forall _ (log_events ?b) => destruct b; unfold log_events
      | |- Forall _ (warnings _) => unfold warnings
      end ].

(** With a device, the run is the start-up, which ends with [ready()],
    followed by the loop. *)
Lemma main_split env debug log_only fuel port log_path h :
  usable (find_devices env port) ->
  fst (main env debug log_only fuel port log_path h)
  = (log_events debug
     ++ [EvFindDevices port]
     ++ warnings (find_devices env port)
     ++ [ EvInfluxdbLogger log_path;
          EvEcho false (writing (new_logger env log_path)) ]
     ++ map (fun d => EvEcho false (beginning d)) (devices (find_devices env port)))
    ++ EvReady
       :: fst (while_true fuel
                 (iteration env debug log_only (devices (find_devices env port)))
                 (h ++ startup env debug port log_path))
  /\ snd (main env debug log_only fuel port log_path h)
     = snd (while_true fuel
              (iteration env debug log_only (devices (find_devices env port)))
              (h ++ startup env debug port log_path)).
Proof.
  intro Hus. rewrite main_run. apply devices_usable in Hus.
  destruct (devices (find_devices env port)) as [ | d ds] eqn:E; [congruence | ].
  cbn [fst snd]. rewrite <- E. split; [ | reflexivity].
  unfold startup. repeat (rewrite <- app_assoc; cbn [app]). reflexivity.
Qed.

(** X4: [main] returns exactly when no result of discovery carries a
    device; with a device the loop has no normal exit, however long it is
    observed: the run is still going, has raised or is blocked. *)
Theorem main_returns_iff_no_device env debug log_only fuel port log_path h :
  snd (main env debug log_only fuel port log_path h) = Done tt
  <-> ~ usable (find_devices env port).
Proof.
  rewrite main_run. rewrite devices_usable.
  destruct (devices (find_devices env port)) as [ | d ds]; cbn [snd].
  - split; [intros _ H; now apply H | reflexivity].
  - split.
    + intro H. exfalso. revert H. apply while_true_never_done.
    + intro H. exfalso. apply H. discriminate.
Qed.

(** X5: with a device, the log writer is created exactly once and
    [ready()] is called exactly once, the writer first; before [ready()]
    the watchdog is not pinged, no device is read and nothing is emitted,
    and everything after [ready()] is an event of the loop. *)
Theorem ready_once_before_loop env debug log_only fuel port log_path h :
  usable (find_devices env port) ->
  (exists pre post,
     fst (main env debug log_only fuel port log_path h) = pre ++ EvReady :: post
     /\ In (EvInfluxdbLogger log_path) pre
     /\ Forall (fun e => is_ping e = false /\ is_read e = false
                         /\ is_emit e = false /\ is_ready e = false) pre
     /\ Forall (fun e => is_loop_event e = true) post)
  /\ length (filter is_ready (fst (main env debug log_only fuel port log_path h)))
     = 1%nat
  /\ length (filter is_new_logger
               (fst (main env debug log_only fuel port log_path h)))
     = 1%nat.
Proof.
  intro Hus.
  destruct (main_split env debug log_only fuel port log_path h Hus) as [Ht _].
  pose proof (loop_events env debug log_only (devices (find_devices env port))
                fuel (h ++ startup env debug port log_path)) as Hloop.
  split; [ | split].
  - eexists. eexists. split; [exact Ht | split; [ | split]].
    + apply in_or_app. right. apply in_or_app. right.
      apply in_or_app. right. now left.
    + pieces.
    + exact Hloop.
  - rewrite Ht. rewrite filter_one; try reflexivity.
    + pieces.
    + eapply Forall_impl; [ | exact Hloop].
      intros [] He; try discriminate; try reflexivity.
  - rewrite Ht.
    match goal with
    | |- context [EvReady :: ?loop] =>
        replace ((log_events debug ++ [EvFindDevices port]
                  ++ warnings (find_devices env port)
                  ++ [ EvInfluxdbLogger log_path;
                       EvEcho false (writing (new_logger env log_path)) ]
                  ++ map (fun d => EvEcho false (beginning d))
                       (devices (find_devices env port)))
                 ++ EvReady :: loop)
          with ((log_events debug ++ [EvFindDevices port]
                 ++ warnings (find_devices env port))
                ++ EvInfluxdbLogger log_path
                   :: (EvEcho false (writing (new_logger env log_path))
                       :: map (fun d => EvEcho false (beginning d))
                            (devices (find_devices env port))
                       ++ EvReady :: loop))
          by (repeat (rewrite <- app_assoc; cbn [app]); reflexivity)
    end.
    rewrite filter_one; try reflexivity.
    + pieces.
    + pieces.
      eapply Forall_impl; [ | exact Hloop].
      intros [] He; try discriminate; try reflexivity.
Qed.

Lemma ready_once_before_loop_witness :
  length (filter is_ready
            (fst (main sample_env false false 4 None "measurements.log" [])))
  = 1%nat.
Proof.
  apply (ready_once_before_loop sample_env false false 4 None
           "measurements.log" []).
  exists (found sample_dev), sample_dev. simpl. tauto.
Defined.

(** X6: debug log records are written in debug mode only: the log records
    of a whole run are the two of the start in debug mode and none
    otherwise; the loop never logs. *)
Theorem log_records_only_in_debug env debug log_only fuel port log_path h :
  filter is_log (fst (main env debug log_only fuel port log_path h))
  = if debug
    then [ EvLog "configured debug logging";
           EvLog "looking for possible PMS7003 devices..." ]
    else [].
Proof.
  change (if debug then _ else _) with (log_events debug).
  assert (Hlog : filter is_log (log_events debug) = log_events debug)
    by now destruct debug.
  rewrite main_run.
  destruct (devices (find_devices env port)) as [ | d ds] eqn:E.
  - unfold giving_up. cbn [fst].
    rewrite filter_app, Hlog, filter_none; [apply app_nil_r | ].
    destruct (find_devices env port); pieces.
  - cbn [fst]. unfold startup. rewrite <- !app_assoc.
    rewrite filter_app, Hlog, filter_none; [apply app_nil_r | ].
    pieces.
    eapply Forall_impl;
      [ | apply (loop_events env debug log_only (d :: ds) fuel)].
    intros [] He; try discriminate; try reflexivity.
Qed.

(** ** Failures *)

Lemma stops_ret {A : Type} (a : A) h : stops_at_failure (ret a h).
Proof. constructor. Qed.

Lemma stops_tell e h : read_failed e = false -> stops_at_failure (tell e h).
Proof. intro H. repeat constructor. exact H. Qed.

Lemma stops_read env d h :
  stops_at_failure (ask (EvRead d) (fun h => read env h d) h).
Proof.
  unfold ask, stops_at_failure.
  destruct (read env h d) as [data | exc | ]; cbn [fst snd].
  - repeat constructor.
  - exists [], (EvRead d (Throws exc)).
    split; [reflexivity | split; [constructor | right; now exists d]].
  - exists [], (EvRead d Hangs).
    split; [reflexivity | split; [constructor | right; now exists d]].
Qed.

Lemma stops_emit env fields tags h :
  stops_at_failure
    (ask (fun _ => EvEmit fields tags) (fun h => emit env h fields tags) h).
Proof.
  unfold ask, stops_at_failure.
  destruct (emit env h fields tags) as [[] | exc | ]; cbn [fst snd].
  - repeat constructor.
  - exists [], (EvEmit fields tags).
    split; [reflexivity | split; [constructor | now left]].
  - exists [], (EvEmit fields tags).
    split; [reflexivity | split; [constructor | now left]].
Qed.

Lemma stops_bind {A B : Type} (m : M A) (k : A -> M B) :
  (forall h, stops_at_failure (m h)) ->
  (forall a h, stops_at_failure (k a h)) ->
  forall h, stops_at_failure (bind m k h).
Proof.
  intros Hm Hk h. unfold bind.
  specialize (Hm h).
  destruct (m h) as [t1 [a | exc | | ]]; try exact Hm.
  specialize (Hk a (h ++ t1)).
  unfold stops_at_failure in *. cbn [fst snd] in Hm.
  destruct (k a (h ++ t1)) as [t2 [b | exc | | ]]; cbn [fst snd] in *.
  - apply Forall_app. now split.
  - destruct Hk as (pre & e & -> & Hpre & He).
    exists (t1 ++ pre), e. rewrite app_assoc.
    split; [reflexivity | split; [apply Forall_app; now split | exact He]].
  - destruct Hk as (pre & e & -> & Hpre & He).
    exists (t1 ++ pre), e. rewrite app_assoc.
    split; [reflexivity | split; [apply Forall_app; now split | exact He]].
  - apply Forall_app. now split.
Qed.

Lemma stops_for_each {A : Type} (xs : list A) body :
  (forall x h, stops_at_failure (body x h)) ->
  forall h, stops_at_failure (for_each xs body h).
Proof.
  intro H. induction xs as [ | x xs IH]; cbn [for_each].
  - apply stops_ret.
  - apply stops_bind; auto.
Qed.

Lemma stops_while_true fuel body :
  (forall h, stops_at_failure (body h)) ->
  forall h, stops_at_failure (while_true fuel body h).
Proof.
  intro H. induction fuel as [ | n IH]; cbn [while_true].
  - intro h. constructor.
  - apply stops_bind; auto.
Qed.

Lemma stops_poll env debug log_only d h :
  stops_at_failure (poll env debug log_only d h).
Proof.
  revert h. unfold poll, print_debug, print_pm, print, click_echo.
  apply stops_bind; [apply stops_read | intro data].
  destruct debug.
  - repeat (apply stops_bind; [ | intros _ ]);
      intro h; now apply stops_tell.
  - apply stops_bind; [apply stops_emit | intros _ ].
    destruct log_only; intro h; [apply stops_ret | now apply stops_tell].
Qed.

Lemma stops_main env debug log_only fuel port log_path h :
  stops_at_failure (main env debug log_only fuel port log_path h).
Proof.
  revert h.
  unfold main, configure_logging, log_debug, click_echo.
  repeat first
    [ apply stops_bind; [ | intros _ ]
    | apply stops_while_true;
      unfold iteration; apply stops_bind;
      [ intro; now apply stops_tell
      | intros _; apply stops_for_each; apply stops_poll ]
    | apply stops_for_each; intro
    | intro; now apply stops_tell
    | intro; apply stops_ret
    | match goal with
      | |- forall h, stops_at_failure ((if ?b then _ else _) h) => destruct b
      | |- forall h, stops_at_failure
                       (match ?o with Some _ => _ | None => _ end h) => destruct o
      end ].
Qed.

(** X7: a read that raises is fatal at once: whenever a read raised [exc]
    anywhere in a run of [main], the run raised [exc] and that read is its
    last event, so no later device is read and nothing is emitted or
    printed after it; a run that returned or is still going had no failed
    read, and a run that raised or blocked ends with the call that did it,
    a read or a call of [emit]. *)
Theorem read_error_is_fatal env debug log_only fuel port log_path h :
  stops_at_failure (main env debug log_only fuel port log_path h)
  /\ (forall d exc,
        In (EvRead d (Throws exc))
           (fst (main env debug log_only fuel port log_path h)) ->
        snd (main env debug log_only fuel port log_path h) = Raised exc
        /\ exists pre,
             fst (main env debug log_only fuel port log_path h)
             = pre ++ [EvRead d (Throws exc)]).
Proof.
  pose proof (stops_main env debug log_only fuel port log_path h) as Hs.
  split; [exact Hs | ].
  intros d exc Hin.
  unfold stops_at_failure, clean in Hs.
  destruct (main env debug log_only fuel port log_path h) as [t o].
  cbn [fst snd] in *.
  assert (Hbad : forall pre, Forall (fun e => read_failed e = false) pre ->
                             ~ In (EvRead d (Throws exc)) pre).
  { intros pre Hpre Hd. rewrite Forall_forall in Hpre.
    specialize (Hpre _ Hd). discriminate. }
  destruct o as [[] | exc' | | ].
  - exfalso. exact (Hbad t Hs Hin).
  - destruct Hs as (pre & e & -> & Hpre & He).
    apply in_app_or in Hin. destruct Hin as [Hin | [-> | []]].
    + exfalso. exact (Hbad pre Hpre Hin).
    + destruct He as [He | (d' & He)]; [discriminate | ].
      inversion He; subst. split; [reflexivity | now exists pre].
  - destruct Hs as (pre & e & -> & Hpre & He).
    apply in_app_or in Hin. destruct Hin as [Hin | [-> | []]].
    + exfalso. exact (Hbad pre Hpre Hin).
    + destruct He as [He | (d' & He)]; discriminate.
  - exfalso. exact (Hbad t Hs Hin).
Qed.

Lemma read_error_is_fatal_witness :
  snd (main broken_env false false 3 None "measurements.log" [])
  = Raised "SerialException".
Proof.
  apply (proj2 (read_error_is_fatal broken_env false false 3 None
                  "measurements.log" []) sample_dev "SerialException").
  vm_compute. tauto.
Defined.

(** ** A world that never fails *)







(** ** Discovery, continued *)


(** ** Order of the reads *)

Lemma reads_of_app (t1 t2 : list event) :
  reads_of (t1 ++ t2) = reads_of t1 ++ reads_of t2.
Proof. apply flat_map_app. Qed.

Lemma for_each_poll_reads env debug log_only devs :
  forall h,
  exists rest,
    devs = reads_of (fst (for_each devs (poll env debug log_only) h)) ++ rest
    /\ (snd (for_each devs (poll env debug log_only) h) = Done tt -> rest = []).
Proof.
  induction devs as [ | d devs IH]; intro h.
  - exists []. now split.
  - cbn [for_each]. unfold bind. rewrite poll_run.
    destruct (read env h d) as [data | exc | ].
    + destruct debug.
      * destruct (IH (h ++ poll_events true log_only (d, data))) as (rest & Hd & Hr).
        destruct (for_each devs _ _) as [t2 o2]. cbn [fst snd] in *.
        exists rest. rewrite reads_of_app. cbn. split; [congruence | exact Hr].
      * destruct (emit env _ _ _) as [[] | exc | ].
        -- destruct (IH (h ++ poll_events false log_only (d, data)))
             as (rest & Hd & Hr).
           destruct (for_each devs _ _) as [t2 o2]. cbn [fst snd] in *.
           exists rest. rewrite reads_of_app.
           split; [destruct log_only; cbn; congruence | exact Hr].
        -- exists devs. split; [reflexivity | discriminate].
        -- exists devs. split; [reflexivity | discriminate].
    + exists devs. split; [reflexivity | discriminate].
    + exists devs. split; [reflexivity | discriminate].
Qed.

(** X10: within an iteration the devices are read in discovery order,
    each at most once and none skipped: the devices read so far are a
    prefix of the device list, in every mode and also when the iteration is
    cut short by an exception or a blocking call; an iteration that runs to
    its end has read every device exactly once. *)
Theorem reads_in_discovery_order env debug log_only devs h :
  exists rest,
    devs = reads_of (fst (iteration env debug log_only devs h)) ++ rest
    /\ (snd (iteration env debug log_only devs h) = Done tt -> rest = []).
Proof.
  rewrite iteration_run. cbn [fst snd].
  apply for_each_poll_reads.
Qed.
